(** * BackEndTradeBot: a shallow embedding of the bot, wallet and trading services

    The three services of [app/core] ([wallet_service.py], [trading_service.py],
    [bot_service.py]) are modelled over one explicit world: the wallet vault with
    the Python heap holding its per-wallet dicts, the trading service's order
    ledger and the bot service's state.  Python exceptions are the [exc] type;
    a service call returns the new world together with its outcome, so state
    mutated before an exception is kept, as in Python.

    Prices are IEEE binary64 floats ([PrimFloat]), like Python's [float].
    The exchange (python-binance [Client]) is an environment [env] of functions
    returning an outcome per call. *)

From stdpp Require Import base gmap strings list.
From Stdlib Require Import Floats ZArith String Ascii.

Set Warnings "-inexact-float".

(* ------------------------------------------------------------------------ *)
(** ** Python runtime fragment *)

(** Exceptions that can reach the code of [app/core]. *)
Inductive exc :=
| ValueError (msg : string)            (* also pydantic's ValidationError *)
| TypeError (msg : string)
| KeyError (key : string)
| ZeroDivisionError
| OverflowError (msg : string)
| InvalidToken                         (* cryptography.fernet.InvalidToken *)
| BinanceAPIException (detail : string) (* app.models.exceptions, HTTP 400 *)
| NotFoundException (detail : string)   (* app.models.exceptions, HTTP 404 *)
| ClientException (msg : string).       (* anything else raised by the exchange client *)

(** [str(e)]; the two HTTPException subclasses print as ["<code>: <detail>"]. *)
Definition exc_str (e : exc) : string :=
  match e with
  | ValueError m | TypeError m | OverflowError m | ClientException m => m
  | KeyError k => "'" ++ k ++ "'"
  | ZeroDivisionError => "float division by zero"
  | InvalidToken => ""
  | BinanceAPIException d => "400: " ++ d
  | NotFoundException d => "404: " ++ d
  end%string.

(** Outcome of a Python call: a value or a raised exception. *)
Inductive result (A : Type) :=
| Ok (a : A)
| Err (e : exc).
Arguments Ok {A} a.
Arguments Err {A} e.

Global Instance result_ret : MRet result := fun A a => Ok a.
Global Instance result_bind : MBind result :=
  fun A B f m => match m with Ok a => f a | Err e => Err e end.
Global Instance result_fmap : FMap result :=
  fun A B f m => match m with Ok a => Ok (f a) | Err e => Err e end.

(** Fernet tokens: the ciphertext is abstracted to the key it was produced
    under and its plaintext; Fernet authenticates tokens, so decrypting under
    another key raises [InvalidToken] instead of returning a plaintext. *)
Record token := mk_token { tok_key : string; tok_plain : string }.

(** Values stored in the dicts the code handles. *)
Inductive pyval :=
| PyNone
| PyBool (b : bool)
| PyInt (z : Z)
| PyStr (s : string)
| PyToken (t : token).   (* the str returned by [_encrypt] *)

Definition py_truthy (v : pyval) : bool :=
  match v with
  | PyNone => false
  | PyBool b => b
  | PyInt z => negb (Z.eqb z 0)
  | PyStr s => negb (String.eqb s "")
  | PyToken _ => true
  end.

(** A dict with string keys (insertion order plays no role in the code). *)
Abbreviation pydict := (gmap string pyval).

(** [d.get(k, default)] *)
Definition py_get (d : pydict) (k : string) (default : pyval) : pyval :=
  match d !! k with Some v => v | None => default end.

(** [d[k]] *)
Definition py_getitem (d : pydict) (k : string) : result pyval :=
  match d !! k with Some v => Ok v | None => Err (KeyError k) end.

(** [bool(x)] for a float: false on [0.0] and [-0.0] only. *)
Definition float_truthy (x : float) : bool := negb (x =? 0)%float.

(** [a / b] on floats: Python raises instead of returning an infinity. *)
Definition py_fdiv (a b : float) : result float :=
  if (b =? 0)%float then Err ZeroDivisionError else Ok (a / b)%float.

(** Decimal rendering of an int, for [str(n)]. *)
Fixpoint digits_of_pos (fuel : nat) (p : positive) (acc : string) : string :=
  match fuel with
  | O => acc
  | S fuel' =>
      let d := Z.to_nat (Z.modulo (Zpos p) 10) in
      let acc' := String (ascii_of_nat (48 + d)) acc in
      match Z.div (Zpos p) 10 with
      | Zpos q => digits_of_pos fuel' q acc'
      | _ => acc'
      end
  end.

Definition string_of_Z (z : Z) : string :=
  match z with
  | Z0 => "0"
  | Zpos p => digits_of_pos (Pos.size_nat p) p ""
  | Zneg p => String "-" (digits_of_pos (Pos.size_nat p) p "")
  end.

(** [str(v)] *)
Definition py_str (v : pyval) : string :=
  match v with
  | PyNone => "None"
  | PyBool true => "True"
  | PyBool false => "False"
  | PyInt z => string_of_Z z
  | PyStr s => s
  | PyToken _ => "gAAAAA"   (* Fernet ciphertext; its body is abstracted *)
  end.

(** [float(n)] for an [int] [n]: the nearest binary64 value, ties to even;
    [OverflowError] when that rounds beyond the largest finite float. *)
Definition float_of_Z (z : Z) : float :=
  SF2Prim (SpecFloat.binary_normalize prec emax z 0 false).

Definition py_float_of_int (z : Z) : result float :=
  let x := float_of_Z z in
  if PrimFloat.is_finite x then Ok x
  else Err (OverflowError "int too large to convert to float").

Definition is_digit (c : ascii) : bool :=
  (48 <=? nat_of_ascii c)%nat && (nat_of_ascii c <=? 57)%nat.

(** digits before the point, digits after it, whether a point was seen *)
Fixpoint scan_decimal (s : string) (m : Z) (k : nat) (dot : bool) (nd : nat)
    : option (Z * nat * nat) :=
  match s with
  | EmptyString => Some (m, k, nd)
  | String c rest =>
      if is_digit c then
        scan_decimal rest (m * 10 + Z.of_nat (nat_of_ascii c - 48))
          (if dot then S k else k) dot (S nd)
      else if (Ascii.eqb c "." && negb dot)%bool then scan_decimal rest m k true nd
      else None
  end.

(** The binary64 value nearest to [(-1)^neg * m / d] ([m >= 0], [d > 0]), ties
    to even: the quotient is computed exactly to [prec] bits and more, its
    remainder gives the rounding location (the core of IEEE division on
    arbitrary integers). *)
Definition round_ratio (neg : bool) (m d : Z) : float :=
  let '(mz, ez, lz) := SpecFloat.SFdiv_core_binary prec emax m 0 d 0 in
  SF2Prim (SpecFloat.binary_round_aux prec emax neg mz ez lz).

(** [float(s)] for the decimal strings the exchange sends: an optional sign,
    digits with at most one point, at least one digit ([["+"|"-"]? digits
    [["." digits]]]), read as [m / 10^k] and correctly rounded as CPython
    does.  CPython also accepts surrounding whitespace, exponents,
    underscores between digits, non-ASCII digits and ["inf"]/["nan"]; these
    forms are outside this model, which rejects them. *)
Definition py_float_of_string (s : string) : result float :=
  let err := Err (ValueError ("could not convert string to float: '" ++ s ++ "'")) in
  let '(neg, body) :=
    match s with
    | String "-" rest => (true, rest)
    | String "+" rest => (false, rest)
    | _ => (false, s) end in
  match scan_decimal body 0 0 false 0 with
  | Some (m, k, S _) => Ok (round_ratio neg m (10 ^ Z.of_nat k))
  | _ => err
  end%string.

(** [float(v)] *)
Definition py_float (v : pyval) : result float :=
  match v with
  | PyNone => Err (TypeError "float() argument must be a string or a real number, not 'NoneType'")
  | PyBool b => Ok (if b then 1 else 0)%float
  | PyInt z => py_float_of_int z
  | PyStr s => py_float_of_string s
  | PyToken _ => Err (ValueError "could not convert string to float")  (* a Fernet token is never decimal *)
  end.

(** [base64.b64encode(bs).decode()] *)
Definition b64_alphabet : string :=
  "ABCDEFGHIJKLMNOPQRSTUVWXYZabcdefghijklmnopqrstuvwxyz0123456789+/".

Definition b64_char (n : N) : string :=
  String (match String.get (N.to_nat n) b64_alphabet with Some c => c | None => "="%char end) "".

Fixpoint b64_encode_bytes (bs : list N) : string :=
  match bs with
  | [] => ""
  | [a] =>
      let n := (a * 65536)%N in
      b64_char (n / 262144) ++ b64_char (n / 4096 mod 64) ++ "=="
  | [a; b] =>
      let n := (a * 65536 + b * 256)%N in
      b64_char (n / 262144) ++ b64_char (n / 4096 mod 64)
        ++ b64_char (n / 64 mod 64) ++ "="
  | a :: b :: c :: rest =>
      let n := (a * 65536 + b * 256 + c)%N in
      b64_char (n / 262144) ++ b64_char (n / 4096 mod 64)
        ++ b64_char (n / 64 mod 64) ++ b64_char (n mod 64) ++ b64_encode_bytes rest
  end%string%N.

Definition b64encode (s : string) : string :=
  b64_encode_bytes (map N_of_ascii (list_ascii_of_string s)).

(** A Python [str] is held as its UTF-8 bytes; a byte [10xxxxxx]
    continues the character started before it. *)
Definition is_utf8_cont (c : ascii) : bool :=
  let n := nat_of_ascii c in ((128 <=? n) && (n <? 192))%nat.

(** The bytes of the last [n] characters, read from the end of the string
    (the bytes of [rs] in reverse order). *)
Fixpoint take_chars_rev (n : nat) (rs : list ascii) {struct rs} : list ascii :=
  match n with
  | O => []
  | S n' =>
      match rs with
      | [] => []
      | c :: rs' => c :: take_chars_rev (if is_utf8_cont c then n else n') rs'
      end
  end.

(** [s[-8:].encode()]: the last 8 characters, as UTF-8 bytes. *)
Definition last8 (s : string) : string :=
  string_of_list_ascii (rev (take_chars_rev 8 (rev (list_ascii_of_string s)))).

(** [s[:6]] *)
Definition first6 (s : string) : string := String.substring 0 6 s.

(* ------------------------------------------------------------------------ *)
(** ** The exchange *)

(** [BinanceClientWrapper]: the credentials it was built with. *)
Record client := mk_client {
  client_api_key : string;
  client_api_secret : string;
  client_testnet : bool }.

(** A create_order request as passed to [client.client.create_order]. *)
Record order_request := mk_order_request {
  req_symbol : string;
  req_side : string;
  req_type : string;
  req_time_in_force : option string;
  req_quantity : float;
  req_price : option float }.

(** One entry of [get_account()["balances"]], amounts already parsed. *)
Record raw_balance := mk_raw_balance {
  rb_asset : string;
  rb_free : float;
  rb_locked : float }.

(** Everything a service call observes from outside: the settings, the clock
    and the outcome of each exchange call (library errors already wrapped as
    the wrapper does). *)
Record env := mk_env {
  settings_api_key : string;        (* settings.BINANCE_API_KEY *)
  settings_api_secret : string;     (* settings.BINANCE_API_SECRET *)
  settings_testnet : bool;          (* settings.BINANCE_TESTNET *)
  now : string;                     (* datetime.utcnow().isoformat() *)
  gw_init : client -> result unit;  (* Client(...) construction *)
  gw_ping : client -> result unit;
  gw_get_price : client -> string -> result float;
  gw_create_order : client -> order_request -> result pydict;
  gw_get_account : client -> result (list raw_balance) }.

(** [get_binance_client(api_key, api_secret, testnet)] *)
Definition get_binance_client (E : env) (api_key api_secret : string) (testnet : pyval)
    : result client :=
  let k := if String.eqb api_key "" then settings_api_key E else api_key in
  let s := if String.eqb api_secret "" then settings_api_secret E else api_secret in
  let t := match testnet with PyNone => settings_testnet E | v => py_truthy v end in
  if (String.eqb k "" || String.eqb s "")%bool
  then Err (ValueError "API Key e API Secret são obrigatórios")
  else let c := mk_client k s t in
       _ ← gw_init E c; Ok c.

(** [test_connection()]: ping, True on success. *)
Definition test_connection (E : env) (c : client) : result bool :=
  _ ← gw_ping E c; Ok true.

(** [get_price(symbol)] *)
Definition get_price (E : env) (c : client) (symbol : string) : result float :=
  gw_get_price E c symbol.

(* ------------------------------------------------------------------------ *)
(** ** WalletService *)

Abbreviation loc := positive.

(** [wallet_service]: its Fernet key, the [_wallets] dict (wallet id to the
    heap location of the per-wallet dict) and the heap of those dicts. *)
Record vault := mk_vault {
  enc_key : string;
  wallets : gmap string loc;
  heap : gmap loc pydict;
  next_loc : loc }.

Definition set_wallets (v : vault) (ws : gmap string loc) : vault :=
  mk_vault (enc_key v) ws (heap v) (next_loc v).

Definition deref (v : vault) (l : loc) : pydict :=
  match heap v !! l with Some d => d | None => ∅ end.

(** Allocate a fresh dict object. *)
Definition alloc (v : vault) (d : pydict) : vault * loc :=
  (mk_vault (enc_key v) (wallets v) (<[next_loc v := d]> (heap v)) (Pos.succ (next_loc v)),
   next_loc v).

(** [obj.pop(k)] on the dict object at [l], mutating it in place. *)
Definition dict_pop_at (v : vault) (l : loc) (k : string) : vault * result pyval :=
  let d := deref v l in
  match d !! k with
  | Some x => (mk_vault (enc_key v) (wallets v) (<[l := delete k d]> (heap v)) (next_loc v), Ok x)
  | None => (v, Err (KeyError k))
  end.

Definition _encrypt (v : vault) (data : string) : pyval :=
  PyToken (mk_token (enc_key v) data).

Definition _decrypt (v : vault) (encrypted_data : pyval) : result string :=
  match encrypted_data with
  | PyToken t => if String.eqb (tok_key t) (enc_key v) then Ok (tok_plain t) else Err InvalidToken
  | _ => Err InvalidToken
  end.

(** [self._wallets[wallet_id]] *)
Definition wallet_entry (v : vault) (wallet_id : string) : result pydict :=
  match wallets v !! wallet_id with
  | Some l => Ok (deref v l)
  | None => Err (KeyError wallet_id)
  end.

(** The three lines repeated in [start], [_execute_strategy] and
    [_get_binance_client_from_wallet]:
    [api_key = _decrypt(_wallets[id]["api_key"])],
    [api_secret = _decrypt(_wallets[id]["api_secret"])],
    [use_testnet = _wallets[id]["use_testnet"]]. *)
Definition read_credentials (v : vault) (wallet_id : string) : result (string * string * pyval) :=
  w ← wallet_entry v wallet_id;
  ek ← py_getitem w "api_key";
  api_key ← _decrypt v ek;
  w' ← wallet_entry v wallet_id;
  es ← py_getitem w' "api_secret";
  api_secret ← _decrypt v es;
  w'' ← wallet_entry v wallet_id;
  use_testnet ← py_getitem w'' "use_testnet";
  Ok (api_key, api_secret, use_testnet).

(** [connect_wallet]: the wallet id is [b64encode(api_key[-8:])]. *)
Definition wallet_id_of (api_key : string) : string := b64encode (last8 api_key).

(** The dict [connect_wallet] stores for a wallet. *)
Definition wallet_record (v : vault) (api_key api_secret : string)
    (wallet_name : option string) (use_testnet : bool) (connected_at : string) : pydict :=
  let wallet_id := wallet_id_of api_key in
  let name := match wallet_name with
              | Some n => if String.eqb n "" then "Wallet-" ++ first6 wallet_id else n
              | None => "Wallet-" ++ first6 wallet_id
              end%string in
  <["api_key" := _encrypt v api_key]>
  (<["api_secret" := _encrypt v api_secret]>
  (<["name" := PyStr name]>
  (<["use_testnet" := PyBool use_testnet]>
  (<["connected_at" := PyStr connected_at]> ∅)))).

Definition connect_wallet (E : env) (v : vault) (api_key api_secret : string)
    (wallet_name : option string) (use_testnet : bool) : vault * result bool :=
  let body : vault * result bool :=
    match c ← get_binance_client E api_key api_secret (PyBool use_testnet);
          test_connection E c with
    | Err e => (v, Err e)
    | Ok false => (v, Ok false)
    | Ok true =>
        let '(v1, l) := alloc v (wallet_record v api_key api_secret wallet_name use_testnet (now E)) in
        (set_wallets v1 (<[wallet_id_of api_key := l]> (wallets v1)), Ok true)
    end in
  match body with
  | (v', Err e) => (v', Err (BinanceAPIException ("Erro ao conectar à carteira: " ++ exc_str e)))
  | r => r
  end.

(** [get_wallet]: copy the stored dict into a fresh object, pop the two
    encrypted fields from the copy and return it ([None] if unknown). *)
Definition get_wallet (v : vault) (wallet_id : string) : vault * result (option loc) :=
  match wallets v !! wallet_id with
  | None => (v, Ok None)
  | Some l =>
      let '(v1, l') := alloc v (deref v l) in
      match dict_pop_at v1 l' "api_key" with
      | (v2, Err e) => (v2, Err e)
      | (v2, Ok _) =>
          match dict_pop_at v2 l' "api_secret" with
          | (v3, Err e) => (v3, Err e)
          | (v3, Ok _) => (v3, Ok (Some l'))
          end
      end
  end.

(** [not get_wallet(...)] in the callers: None or an empty dict. *)
Definition wallet_missing (v : vault) (o : option loc) : bool :=
  match o with
  | None => true
  | Some l => bool_decide (deref v l = ∅)
  end.

Record asset_balance := mk_asset_balance {
  ab_asset : string; ab_free : float; ab_locked : float }.

(** [get_wallet_balance] *)
Definition get_wallet_balance (E : env) (v : vault) (wallet_id : string)
    : result (list asset_balance) :=
  match wallets v !! wallet_id with
  | None => Err (ValueError "Carteira não encontrada ou não conectada")
  | Some _ =>
      let body :=
        '(api_key, api_secret, use_testnet) ← read_credentials v wallet_id;
        c ← get_binance_client E api_key api_secret use_testnet;
        account ← gw_get_account E c;
        Ok (foldr (fun b acc =>
                if ((0 <? rb_free b)%float || (0 <? rb_locked b)%float)%bool
                then mk_asset_balance (rb_asset b) (rb_free b) (rb_locked b) :: acc
                else acc) [] account) in
      match body with
      | Ok r => Ok r
      | Err e => Err (BinanceAPIException ("Erro ao obter saldo da carteira: " ++ exc_str e))
      end
  end.

(* ------------------------------------------------------------------------ *)
(** ** TradingService *)

Inductive order_side := BUY | SELL.
Inductive order_type := MARKET | LIMIT.
Inductive order_status := NEW | PARTIALLY_FILLED | FILLED | CANCELED | REJECTED | EXPIRED.

(** [OrderSide(v)], [OrderType(v)], [OrderStatus(v)]: lookup by value. *)
Definition OrderSide_of (v : pyval) : result order_side :=
  match v with
  | PyStr "BUY" => Ok BUY
  | PyStr "SELL" => Ok SELL
  | _ => Err (ValueError (py_str v ++ " is not a valid OrderSide"))
  end%string.

Definition OrderType_of (v : pyval) : result order_type :=
  match v with
  | PyStr "MARKET" => Ok MARKET
  | PyStr "LIMIT" => Ok LIMIT
  | _ => Err (ValueError (py_str v ++ " is not a valid OrderType"))
  end%string.

Definition OrderStatus_of (v : pyval) : result order_status :=
  match v with
  | PyStr "NEW" => Ok NEW
  | PyStr "PARTIALLY_FILLED" => Ok PARTIALLY_FILLED
  | PyStr "FILLED" => Ok FILLED
  | PyStr "CANCELED" => Ok CANCELED
  | PyStr "REJECTED" => Ok REJECTED
  | PyStr "EXPIRED" => Ok EXPIRED
  | _ => Err (ValueError (py_str v ++ " is not a valid OrderStatus"))
  end%string.

(** ISO timestamps: from the exchange's millisecond field, or [utcnow()]. *)
Inductive timestamp :=
| TsFromMillis (ms : pyval)
| TsNow (iso : string).

(** [datetime.fromtimestamp(v / 1000).isoformat()], with the server's local
    time zone taken as UTC: the result must fall in the years 1 to 9999,
    i.e. [-62135596800000 <= v < 253402300800000] milliseconds.  Outside that
    range CPython raises a [ValueError] naming the year (or an
    [OverflowError]/[OSError] for values the platform's [time_t] cannot
    hold); the model keeps one [ValueError] for all of them.  The ISO text
    itself is abstracted as the millisecond value it comes from. *)
Definition ts_min_ms : Z := -62135596800000.
Definition ts_max_ms : Z := 253402300800000.

Definition ts_from_millis (v : pyval) : result timestamp :=
  match v with
  | PyBool _ => Ok (TsFromMillis v)
  | PyInt ms =>
      if ((ts_min_ms <=? ms) && (ms <? ts_max_ms))%Z then Ok (TsFromMillis v)
      else Err (ValueError "year is out of range")
  | PyNone => Err (TypeError "unsupported operand type(s) for /: 'NoneType' and 'int'")
  | PyStr _ | PyToken _ => Err (TypeError "unsupported operand type(s) for /: 'str' and 'int'")
  end.

(** pydantic's check of a [str] field *)
Definition validate_str (v : pyval) : result string :=
  match v with
  | PyStr s => Ok s
  | _ => Err (ValueError "1 validation error for OrderResponse: Input should be a valid string")
  end.

Record order_response := mk_order_response {
  order_id : string;
  or_symbol : string;
  side : order_side;
  type : order_type;
  or_status : order_status;
  quantity : float;
  price : option float;
  executed_quantity : float;
  cumulative_quote_quantity : float;
  created_at : timestamp;
  updated_at : option timestamp }.

(** The [try] block of [_create_order_response]. *)
Definition map_order_response (E : env) (od : pydict) : result order_response :=
  let oid := py_str (py_get od "orderId" PyNone) in
  s ← OrderSide_of (py_get od "side" PyNone);
  t ← OrderType_of (py_get od "type" PyNone);
  st ← OrderStatus_of (py_get od "status" PyNone);
  q ← py_float (py_get od "origQty" PyNone);
  p ← (if py_truthy (py_get od "price" PyNone)
       then x ← py_float (py_get od "price" (PyInt 0)); Ok (Some x)
       else Ok None);
  eq ← py_float (py_get od "executedQty" (PyInt 0));
  cq ← py_float (py_get od "cummulativeQuoteQty" (PyInt 0));
  ca ← (if py_truthy (py_get od "time" PyNone)
        then ts_from_millis (py_get od "time" (PyInt 0)) else Ok (TsNow (now E)));
  ua ← (if py_truthy (py_get od "updateTime" PyNone)
        then x ← ts_from_millis (py_get od "updateTime" (PyInt 0)); Ok (Some x)
        else Ok None);
  sym ← validate_str (py_get od "symbol" PyNone);
  Ok (mk_order_response oid sym s t st q p eq cq ca ua).

(** [_create_order_response]: on any error, the basic fallback record
    (BUY, MARKET, NEW, no price); errors of the fallback itself propagate. *)
Definition _create_order_response (E : env) (od : pydict) : result order_response :=
  match map_order_response E od with
  | Ok r => Ok r
  | Err _ =>
      let oid := py_str (py_get od "orderId" (PyStr "unknown")) in
      q ← py_float (py_get od "origQty" (PyInt 0));
      sym ← validate_str (py_get od "symbol" (PyStr "unknown"));
      Ok (mk_order_response oid sym BUY MARKET NEW q None 0%float 0%float (TsNow (now E)) None)
  end.

(** [trading_service._orders]: order id to the raw order dict. *)
Abbreviation order_ledger := (gmap string pydict).

(** [_get_binance_client_from_wallet] *)
Definition _get_binance_client_from_wallet (E : env) (v : vault) (wallet_id : string)
    : vault * result client :=
  match get_wallet v wallet_id with
  | (v1, Err e) => (v1, Err e)
  | (v1, Ok info) =>
      if wallet_missing v1 info
      then (v1, Err (NotFoundException ("Carteira com ID " ++ wallet_id ++ " não encontrada")))
      else (v1, '(api_key, api_secret, use_testnet) ← read_credentials v1 wallet_id;
                get_binance_client E api_key api_secret use_testnet)
  end.

(** The request [place_buy_order] / [place_sell_order] send: LIMIT with GTC
    when a price is given, MARKET otherwise. *)
Definition order_request_of (symbol side : string) (quantity : float) (price : option float)
    : order_request :=
  match price with
  | Some p => mk_order_request symbol side "LIMIT" (Some "GTC") quantity (Some p)
  | None => mk_order_request symbol side "MARKET" None quantity None
  end.

(** [place_buy_order] ([side] = ["BUY"]) and [place_sell_order] ([side] = ["SELL"]);
    they differ only in the side and the wording of the error. *)
Definition place_order (side : string) (what : string) (E : env) (v : vault) (ledger : order_ledger)
    (symbol : string) (quantity : float) (wallet_id : string) (price : option float)
    : vault * order_ledger * result order_response :=
  let '(v1, c) := _get_binance_client_from_wallet E v wallet_id in
  let body : order_ledger * result order_response :=
    match c with
    | Err e => (ledger, Err e)
    | Ok c =>
        match gw_create_order E c (order_request_of symbol side quantity price) with
        | Err e => (ledger, Err e)
        | Ok order_result =>
            match py_getitem order_result "orderId" with
            | Err e => (ledger, Err e)
            | Ok oid =>
                let ledger' := <[py_str oid := order_result]> ledger in
                (ledger', _create_order_response E order_result)
            end
        end
    end in
  match body with
  | (l', Ok r) => (v1, l', Ok r)
  | (l', Err e) => (v1, l', Err (BinanceAPIException ("Erro ao executar ordem de " ++ what ++ ": " ++ exc_str e)))
  end.

Definition place_buy_order := place_order "BUY" "compra".
Definition place_sell_order := place_order "SELL" "venda".

(* ------------------------------------------------------------------------ *)
(** ** BotService *)

Inductive bot_status := STOPPED | RUNNING | ERROR.
Inductive bot_strategy := SIMPLE | GRID.

Record bot_config := mk_bot_config {
  symbol : string;
  interval_seconds : Z;
  max_amount : float;
  wallet_id : string;
  strategy : bot_strategy;
  buy_threshold : option float;
  sell_threshold : option float }.

(** The validators of [BotConfig] (the symbol is upper-cased by its validator). *)
Definition bot_config_valid (c : bot_config) : bool :=
  (5 <=? interval_seconds c)%Z && (0 <? max_amount c)%float.

(** The f-strings written to [_state["last_operation"]], by their arguments. *)
Inductive operation :=
| OpStarted (sym : string)                          (* "Bot iniciado para {symbol}" *)
| OpStoppedByUser                                   (* "Bot parado pelo usuário" *)
| OpMonitoring (price : float)                      (* "Monitorando preço: {p}" *)
| OpAnalysis (current pct : float)                  (* "Análise: Preço atual {c}, variação {pct:.2f}%" *)
| OpBuySignal (abs_pct last current : float)        (* "Sinal de compra detectado: ..." *)
| OpSellSignal (pct last current : float)           (* "Sinal de venda detectado: ..." *)
| OpGridAnalysis (current pct : float)              (* "Análise grid trading: ..." *)
| OpStrategyError (msg : string).                   (* "Erro ao executar estratégia: {e}" *)

(** The advisory signal an operation note reports. *)
Inductive signal := SigNONE | SigBUY | SigSELL.

Definition signal_of (op : operation) : signal :=
  match op with
  | OpBuySignal _ _ _ => SigBUY
  | OpSellSignal _ _ _ => SigSELL
  | _ => SigNONE
  end.

Record price_sample := mk_price_sample { ps_price : float; ps_timestamp : string }.

(** The fields of [BotService]: the thread (alive or not), [_stop_event],
    [_status], [_config] and the entries of the [_state] dict. *)
Record bot_state := mk_bot_state {
  thread_alive : bool;
  stop_event : bool;
  status : bot_status;
  config : option bot_config;
  start_time : option string;
  last_price : option float;
  last_operation : option operation;
  error_message : option string;
  st_wallet_id : option string;
  st_symbol : option string;
  price_history : list price_sample }.

Definition init_bot : bot_state :=
  mk_bot_state false false STOPPED None None None None None None None [].

Definition set_status (s : bot_status) (b : bot_state) : bot_state :=
  mk_bot_state (thread_alive b) (stop_event b) s (config b) (start_time b) (last_price b)
    (last_operation b) (error_message b) (st_wallet_id b) (st_symbol b) (price_history b).
Definition set_error_message (m : option string) (b : bot_state) : bot_state :=
  mk_bot_state (thread_alive b) (stop_event b) (status b) (config b) (start_time b) (last_price b)
    (last_operation b) m (st_wallet_id b) (st_symbol b) (price_history b).
Definition set_last_operation (o : option operation) (b : bot_state) : bot_state :=
  mk_bot_state (thread_alive b) (stop_event b) (status b) (config b) (start_time b) (last_price b)
    o (error_message b) (st_wallet_id b) (st_symbol b) (price_history b).
Definition set_last_price (p : option float) (b : bot_state) : bot_state :=
  mk_bot_state (thread_alive b) (stop_event b) (status b) (config b) (start_time b) p
    (last_operation b) (error_message b) (st_wallet_id b) (st_symbol b) (price_history b).
Definition set_price_history (h : list price_sample) (b : bot_state) : bot_state :=
  mk_bot_state (thread_alive b) (stop_event b) (status b) (config b) (start_time b) (last_price b)
    (last_operation b) (error_message b) (st_wallet_id b) (st_symbol b) h.
Definition set_stop_event (e : bool) (b : bot_state) : bot_state :=
  mk_bot_state (thread_alive b) e (status b) (config b) (start_time b) (last_price b)
    (last_operation b) (error_message b) (st_wallet_id b) (st_symbol b) (price_history b).
Definition set_thread_alive (a : bool) (b : bot_state) : bot_state :=
  mk_bot_state a (stop_event b) (status b) (config b) (start_time b) (last_price b)
    (last_operation b) (error_message b) (st_wallet_id b) (st_symbol b) (price_history b).

(** The process: the three global service instances. *)
Record world := mk_world {
  vault_of : vault;
  orders : order_ledger;
  bot : bot_state }.

Definition with_vault (v : vault) (w : world) : world := mk_world v (orders w) (bot w).
Definition with_bot (b : bot_state) (w : world) : world := mk_world (vault_of w) (orders w) b.

(** Credentials, client and one [get_price]: the [try] block of [start]
    (its validation probe) and the first lines of [_execute_strategy]. *)
Definition fetch_price (E : env) (v : vault) (cfg : bot_config) : result float :=
  '(api_key, api_secret, use_testnet) ← read_credentials v (wallet_id cfg);
  c ← get_binance_client E api_key api_secret use_testnet;
  get_price E c (symbol cfg).

(** The state [start] installs after a successful probe. *)
Definition started_state (E : env) (cfg : bot_config) (price : float) : bot_state :=
  mk_bot_state true false RUNNING (Some cfg) (Some (now E)) (Some price)
    (Some (OpStarted (symbol cfg))) None (Some (wallet_id cfg)) (Some (symbol cfg)) [].

Definition already_running_msg : string := "O bot já está em execução".
Definition invalid_symbol_msg : string := "Símbolo inválido ou erro de conexão: ".

(** [BotService.start] *)
Definition start (E : env) (w : world) (cfg : bot_config) : world * result bool :=
  if thread_alive (bot w) then (w, Err (ValueError already_running_msg)) else
  match get_wallet (vault_of w) (wallet_id cfg) with
  | (v1, Err e) => (with_vault v1 w, Err e)
  | (v1, Ok info) =>
      let w1 := with_vault v1 w in
      if wallet_missing v1 info
      then (w1, Err (ValueError ("Carteira com ID " ++ wallet_id cfg ++ " não encontrada")))
      else match fetch_price E v1 cfg with
           | Err e => (w1, Err (ValueError (invalid_symbol_msg ++ exc_str e)))
           | Ok price => (with_bot (started_state E cfg price) w1, Ok true)
           end
  end.

(** The [finally] of [_run_bot_loop], then the thread ends. *)
Definition loop_exit (b : bot_state) : bot_state :=
  set_thread_alive false
    (match status b with STOPPED => b | _ => set_status ERROR b end).

(** [BotService.stop]; [joined] says whether the loop thread ended within
    the 30 s [join]. *)
Definition stop (joined : bool) (w : world) : world * bool :=
  let b := bot w in
  if negb (thread_alive b) then (w, false) else
  let b1 := set_stop_event true b in
  let b2 := if joined then loop_exit b1 else b1 in
  (with_bot (set_last_operation (Some OpStoppedByUser) (set_status STOPPED b2)) w, true).

(** [price_history.append(sample)], then [pop(0)] above 100 entries. *)
Definition push_history (h : list price_sample) (s : price_sample) : list price_sample :=
  let h' := h ++ [s] in
  if (100 <? List.length h')%nat then List.tl h' else h'.

(** [self._config.buy_threshold or 0.5]: [None] and [0.0] both give the default. *)
Definition threshold_or (t : option float) (default : float) : float :=
  match t with
  | Some x => if float_truthy x then x else default
  | None => default
  end.

(** [_execute_simple_strategy]: the note it leaves in [last_operation]. *)
Definition _execute_simple_strategy (cfg : bot_config) (last current : float) : result operation :=
  let buy := threshold_or (buy_threshold cfg) 0.5 in
  let sell := threshold_or (sell_threshold cfg) 1.0 in
  q ← py_fdiv (current - last)%float last;
  let pct := (q * 100)%float in
  if (pct <=? - buy)%float then Ok (OpBuySignal (abs pct) last current)
  else if (sell <=? pct)%float then Ok (OpSellSignal pct last current)
  else Ok (OpAnalysis current pct).

(** [_execute_grid_strategy] *)
Definition _execute_grid_strategy (last current : float) : result operation :=
  q ← py_fdiv (current - last)%float last;
  Ok (OpGridAnalysis current (q * 100)%float).

(** Lines 202-211 of [_execute_strategy]: [if not last_price] monitor, else
    run the configured strategy on the previous price. *)
Definition strategy_dispatch (cfg : bot_config) (last : option float) (current : float)
    : result operation :=
  match last with
  | Some l =>
      if float_truthy l then
        match strategy cfg with
        | SIMPLE => _execute_simple_strategy cfg l current
        | GRID => _execute_grid_strategy l current
        end
      else Ok (OpMonitoring current)
  | None => Ok (OpMonitoring current)
  end.

Definition strategy_error (e : exc) : operation :=
  OpStrategyError ("Erro ao executar estratégia: " ++ exc_str e).

(** [_execute_strategy]: every exception of its body is caught and only
    written to [last_operation]. *)
Definition _execute_strategy (E : env) (w : world) : world * result unit :=
  let b := bot w in
  match config b with
  | None => (w, Ok tt)
  | Some cfg =>
      match fetch_price E (vault_of w) cfg with
      | Err e => (with_bot (set_last_operation (Some (strategy_error e)) b) w, Ok tt)
      | Ok current_price =>
          let b1 := set_price_history
                      (push_history (price_history b) (mk_price_sample current_price (now E))) b in
          let last := last_price b1 in
          let b2 := set_last_price (Some current_price) b1 in
          match strategy_dispatch cfg last current_price with
          | Ok op => (with_bot (set_last_operation (Some op) b2) w, Ok tt)
          | Err e => (with_bot (set_last_operation (Some (strategy_error e)) b2) w, Ok tt)
          end
      end
  end.

Inductive loop_ctl := Continue | Break.

(** One pass of the [while] body of [_run_bot_loop] (the stop event is
    checked by the caller); [Break] ends the loop. *)
Definition loop_iteration (E : env) (w : world) : world * loop_ctl :=
  let b := bot w in
  match config b with
  | None =>
      (with_bot (set_status ERROR (set_error_message (Some "Configuração do bot não definida") b)) w,
       Break)
  | Some _ =>
      match _execute_strategy E w with
      | (w', Ok _) => (w', Continue)   (* then [_stop_event.wait(interval_seconds)] *)
      | (w', Err e) =>
          let msg := match e with
                     | BinanceAPIException _ => "Erro na API da Binance: " ++ exc_str e
                     | _ => "Erro durante a execução do bot: " ++ exc_str e
                     end%string in
          (with_bot (set_status ERROR (set_error_message (Some msg) (bot w'))) w', Break)
      end
  end.

(** One scheduling step of the loop thread: test [_stop_event], run an
    iteration, leave through [finally] on [Break]. *)
Definition run_bot_loop_step (E : env) (w : world) : world :=
  let b := bot w in
  if negb (thread_alive b) then w
  else if stop_event b then
    (* [stop] gave up its [join] while an iteration was running: that
       iteration completes after [stop] returned, its [wait] returns at once
       and the [while] test ends the loop *)
    match loop_iteration E w with
    | (w', _) => with_bot (loop_exit (bot w')) w'
    end
  else match loop_iteration E w with
       | (w', Continue) => w'
       | (w', Break) => with_bot (loop_exit (bot w')) w'
       end.

(** The loop thread scheduled once per environment of [Es]. *)
Fixpoint run_bot_loop (Es : list env) (w : world) : world :=
  match Es with
  | [] => w
  | E :: Es' => run_bot_loop Es' (run_bot_loop_step E w)
  end.

(** A fresh process: [WalletService()] with its key, [TradingService()],
    [BotService()]. *)
Definition init_world (key : string) : world :=
  mk_world (mk_vault key ∅ ∅ 1%positive) ∅ init_bot.

Definition place_step (side what : string) (E : env) (sym : string) (q : float)
    (wid : string) (p : option float) (w : world) : world :=
  let r := place_order side what E (vault_of w) (orders w) sym q wid p in
  mk_world (fst (fst r)) (snd (fst r)) (bot w).

(** Every state change of the process: an API call or a loop step. *)
Inductive step : world -> world -> Prop :=
| step_start E cfg w : step w (fst (start E w cfg))
| step_stop joined w : step w (fst (stop joined w))
| step_loop E w : step w (run_bot_loop_step E w)
| step_connect E k s n t w :
    step w (with_vault (fst (connect_wallet E (vault_of w) k s n t)) w)
| step_get_wallet wid w : step w (with_vault (fst (get_wallet (vault_of w) wid)) w)
| step_place side what E sym q wid p w : step w (place_step side what E sym q wid p w).

Inductive reachable : world -> Prop :=
| reachable_init key : reachable (init_world key)
| reachable_step w w' : reachable w -> step w w' -> reachable w'.

(* ------------------------------------------------------------------------ *)
(** ** The rest of the services and the wallet endpoints *)

(** [list_wallets]: for each stored wallet, a new dict with its id and the
    [name], [use_testnet] and [connected_at] of the stored dict.  Python
    iterates [_wallets] in insertion order; [map_to_list] enumerates the same
    entries (the properties below do not depend on the order). *)
Definition list_wallet_entry (v : vault) (wallet_id : string) (l : loc) : result pydict :=
  let wallet_info := deref v l in
  n ← py_getitem wallet_info "name";
  t ← py_getitem wallet_info "use_testnet";
  c ← py_getitem wallet_info "connected_at";
  Ok (<["id" := PyStr wallet_id]> (<["name" := n]> (<["use_testnet" := t]> (<["connected_at" := c]> ∅)))).

Definition list_wallets (v : vault) : result (list pydict) :=
  mapM (fun '(wallet_id, l) => list_wallet_entry v wallet_id l) (map_to_list (wallets v)).

(** Outcome of a FastAPI endpoint: a body, or an [HTTPException] with its
    status code and detail. *)
Inductive api_result (A : Type) :=
| ApiOk (a : A)
| ApiErr (status_code : Z) (detail : string).
Arguments ApiOk {A} a.
Arguments ApiErr {A} status_code detail.

Record connection_status := mk_connection_status {
  is_connected : bool;
  cs_wallet_name : option string;
  cs_timestamp : string }.

(** [POST /api/wallet/connect] ([app/api/wallet.py]).  The [HTTPException]
    raised inside its [try] when [connect_wallet] returns [False] is caught by
    its own [except Exception]. *)
Definition api_connect_wallet (E : env) (v : vault) (api_key api_secret : string)
    (use_testnet : bool) (wallet_name : option string) : vault * api_result connection_status :=
  let fail500 (e : string) := ApiErr 500 ("Erro ao conectar à carteira: " ++ e) in
  match connect_wallet E v api_key api_secret wallet_name use_testnet with
  | (v1, Err (BinanceAPIException _ as e)) => (v1, ApiErr 400 (exc_str e))
  | (v1, Err e) => (v1, fail500 (exc_str e))
  | (v1, Ok is_conn) =>
      let wid := b64encode (last8 api_key) in
      if is_conn then
        match get_wallet v1 wid with
        | (v2, Err e) => (v2, fail500 (exc_str e))
        | (v2, Ok None) => (v2, fail500 "'NoneType' object is not subscriptable")
        | (v2, Ok (Some l)) =>
            match deref v2 l !! "name" with
            | Some (PyStr n) => (v2, ApiOk (mk_connection_status true (Some n) (now E)))
            | Some PyNone => (v2, ApiOk (mk_connection_status true None (now E)))
            | Some _ => (v2, fail500 "1 validation error for WalletConnectionStatus")
            | None => (v2, fail500 (exc_str (KeyError "name")))
            end
        end
      else (v1, fail500 "400: Não foi possível conectar à carteira com as credenciais fornecidas")
  end%string.

Record wallet_list := mk_wallet_list {
  wl_wallets : list pydict;
  wl_count : Z;
  wl_timestamp : string }.

(** [GET /api/wallet/list] *)
Definition api_list_wallets (E : env) (v : vault) : api_result wallet_list :=
  match list_wallets v with
  | Ok ws => ApiOk (mk_wallet_list ws (Z.of_nat (List.length ws)) (now E))
  | Err e => ApiErr 500 ("Erro ao listar carteiras: " ++ exc_str e)
  end%string.

Record wallet_balance := mk_wallet_balance {
  balances : list asset_balance;
  wb_timestamp : string }.

(** [GET /api/wallet/{wallet_id}/balance].  The 404 [HTTPException] raised
    inside the [try] for an unknown id is neither a [ValueError] nor a
    [BinanceAPIException]: its [except Exception] catches it (it prints as
    ["404: <detail>"], as [NotFoundException] does). *)
Definition api_get_wallet_balance (E : env) (v : vault) (wallet_id : string)
    : vault * api_result wallet_balance :=
  let fail500 (e : exc) := ApiErr 500 ("Erro ao obter saldo da carteira: " ++ exc_str e) in
  match get_wallet v wallet_id with
  | (v1, Err e) => (v1, fail500 e)
  | (v1, Ok None) => (v1, fail500 (NotFoundException ("Carteira com ID " ++ wallet_id ++ " não encontrada")))
  | (v1, Ok (Some _)) =>
      match get_wallet_balance E v1 wallet_id with
      | Ok bs => (v1, ApiOk (mk_wallet_balance bs (now E)))
      | Err (ValueError m) => (v1, ApiErr 404 m)
      | Err (BinanceAPIException _ as e) => (v1, ApiErr 400 (exc_str e))
      | Err e => (v1, fail500 e)
      end
  end%string.

(** The exchange calls of the other [Client] methods the code uses (library
    errors already wrapped as the wrapper does). *)
Record env_ext := mk_env_ext {
  gw_exchange_symbols : client -> result (option (list pydict)); (* get_exchange_info()["symbols"] *)
  gw_get_order : client -> string -> Z -> result pydict;
  gw_cancel_order : client -> string -> Z -> result pydict;
  gw_get_all_orders : client -> string -> result (list pydict) }.

(** [s["status"] == "TRADING"] *)
Definition is_trading (v : pyval) : bool :=
  match v with PyStr "TRADING" => true | _ => false end%string.

(** [[s["symbol"] for s in symbols if s["status"] == "TRADING"]] *)
Fixpoint trading_symbols (ss : list pydict) : result (list pyval) :=
  match ss with
  | [] => Ok []
  | s :: rest =>
      st ← py_getitem s "status";
      if is_trading st
      then sym ← py_getitem s "symbol"; r ← trading_symbols rest; Ok (sym :: r)
      else trading_symbols rest
  end.

(** [BinanceClientWrapper.get_available_symbols] *)
Definition get_available_symbols (X : env_ext) (c : client) : result (list pyval) :=
  info ← gw_exchange_symbols X c;
  match info with
  | None => Err (KeyError "symbols")
  | Some ss => trading_symbols ss
  end.

(** [int(s)] on an ASCII string: surrounding whitespace, an optional sign,
    decimal digits with single underscores between them. *)
Definition is_py_space (c : ascii) : bool :=
  let n := nat_of_ascii c in
  ((9 <=? n) && (n <=? 13)) || ((28 <=? n) && (n <=? 32)).

Fixpoint lstrip (s : string) : string :=
  match s with
  | String c rest => if is_py_space c then lstrip rest else s
  | EmptyString => EmptyString
  end.

Definition strip (s : string) : string :=
  string_of_list_ascii (rev (list_ascii_of_string (lstrip (string_of_list_ascii
    (rev (list_ascii_of_string (lstrip s))))))).

(** digits with single underscores between them; [prev] says the last
    character read was a digit *)
Fixpoint parse_digits (s : string) (acc : Z) (prev : bool) : option Z :=
  match s with
  | EmptyString => if prev then Some acc else None
  | String c rest =>
      if is_digit c then parse_digits rest (acc * 10 + Z.of_nat (nat_of_ascii c - 48)) true
      else if (Ascii.eqb c "_" && prev)%bool then parse_digits rest acc false
      else None
  end.

(** [int(s)] for a [str]: surrounding whitespace, an optional sign, ASCII
    digits with single underscores between them.  CPython also accepts the
    other Unicode decimal digits and whitespace, which this model rejects;
    its error message quotes [s] with [repr], which for the strings without
    quotes, backslashes or non-printable characters is ['s'] as here. *)
Definition py_int_of_string (s : string) : result Z :=
  let err := Err (ValueError ("invalid literal for int() with base 10: '" ++ s ++ "'")) in
  let body := strip s in
  let parsed :=
    match body with
    | String "-" rest => option_map Z.opp (parse_digits rest 0 false)
    | String "+" rest => parse_digits rest 0 false
    | _ => parse_digits body 0 false
    end in
  match parsed with Some z => Ok z | None => err end%string.

(** [get_order] and [cancel_order]: client from the wallet, the exchange call
    with [orderId=int(order_id)], the raw answer stored under [order_id] as
    given, and its [OrderResponse]; every error wrapped with [what]. *)
Definition order_call (what : string) (call : client -> string -> Z -> result pydict)
    (E : env) (v : vault) (ledger : order_ledger) (oid wallet_id symbol : string)
    : vault * order_ledger * result order_response :=
  let '(v1, c) := _get_binance_client_from_wallet E v wallet_id in
  let body : order_ledger * result order_response :=
    match c with
    | Err e => (ledger, Err e)
    | Ok c =>
        match py_int_of_string oid with
        | Err e => (ledger, Err e)
        | Ok n =>
            match call c symbol n with
            | Err e => (ledger, Err e)
            | Ok info => (<[oid := info]> ledger, _create_order_response E info)
            end
        end
    end in
  match body with
  | (l', Ok r) => (v1, l', Ok r)
  | (l', Err e) => (v1, l', Err (BinanceAPIException (what ++ exc_str e)))
  end.

Definition get_order (E : env) (X : env_ext) :=
  order_call "Erro ao obter informações da ordem: " (gw_get_order X) E.
Definition cancel_order (E : env) (X : env_ext) :=
  order_call "Erro ao cancelar ordem: " (gw_cancel_order X) E.

(** [get_orders] without a symbol: the three symbols, failures skipped. *)
Definition common_symbols : list string := ["BTCUSDT"; "ETHUSDT"; "BNBUSDT"].

Fixpoint collect_orders (call : string -> result (list pydict)) (ss : list string)
    (acc : list pydict) : list pydict :=
  match ss with
  | [] => acc
  | s :: rest =>
      match call s with
      | Ok os => collect_orders call rest (acc ++ os)
      | Err _ => collect_orders call rest acc
      end
  end.

(** [x.get('time', 0)] as a sort key: ints (and bools) compare with each
    other, strings with each other (by code point, which UTF-8 byte order
    preserves); [None] compares with nothing.  (The exchange never sends a
    Fernet token; one would compare as the string it prints as.) *)
Inductive sort_key := KInt (z : Z) | KStr (s : string) | KNone.

Definition time_key (o : pydict) : sort_key :=
  match py_get o "time" (PyInt 0) with
  | PyInt z => KInt z
  | PyBool b => KInt (if b then 1 else 0)
  | PyStr s => KStr s
  | PyNone => KNone
  | PyToken t => KStr (py_str (PyToken t))
  end.

Definition key_int (k : sort_key) : option Z := match k with KInt z => Some z | _ => None end.
Definition key_str (k : sort_key) : option string := match k with KStr s => Some s | _ => None end.

(** Insert [x] before the first element with a strictly smaller key: a
    stable sort in decreasing key order, as [sorted(..., reverse=True)]. *)
Fixpoint insert_desc (lt : pydict -> pydict -> bool) (x : pydict) (l : list pydict) : list pydict :=
  match l with
  | [] => [x]
  | y :: l' => if lt y x then x :: l else y :: insert_desc lt x l'
  end.

Definition sort_desc (lt : pydict -> pydict -> bool) (os : list pydict) : list pydict :=
  foldl (fun acc x => insert_desc lt x acc) [] os.

Definition int_lt (a b : pydict) : bool :=
  match key_int (time_key a), key_int (time_key b) with
  | Some x, Some y => (x <? y)%Z
  | _, _ => false
  end.

Definition str_lt (a b : pydict) : bool :=
  match key_str (time_key a), key_str (time_key b) with
  | Some x, Some y => String.ltb x y
  | _, _ => false
  end.

(** [sorted(orders, key=lambda x: x.get('time', 0), reverse=True)]: fewer
    than two orders are never compared; otherwise keys of different kinds
    (or [None]) meet in some comparison and raise.  CPython's message names
    the two operand types of the first failing comparison (["'<' not
    supported between instances of 'str' and 'int'"]), which depends on the
    order in which the sort compares; the model keeps only its common
    prefix. *)
Definition sort_orders (os : list pydict) : result (list pydict) :=
  match os with
  | [] | [_] => Ok os
  | _ =>
      if forallb (fun o => bool_decide (is_Some (key_int (time_key o)))) os
      then Ok (sort_desc int_lt os)
      else if forallb (fun o => bool_decide (is_Some (key_str (time_key o)))) os
      then Ok (sort_desc str_lt os)
      else Err (TypeError "'<' not supported between instances")
  end.

(** [for order in orders: self._orders[str(order["orderId"])] = order] *)
Fixpoint record_orders (ledger : order_ledger) (os : list pydict) : order_ledger * result unit :=
  match os with
  | [] => (ledger, Ok tt)
  | o :: rest =>
      match py_getitem o "orderId" with
      | Err e => (ledger, Err e)
      | Ok oid => record_orders (<[py_str oid := o]> ledger) rest
      end
  end.

(** [TradingService.get_orders] *)
Definition get_orders (E : env) (X : env_ext) (v : vault) (ledger : order_ledger)
    (wallet_id : string) (symbol : option string)
    : vault * order_ledger * result (list order_response) :=
  let '(v1, c) := _get_binance_client_from_wallet E v wallet_id in
  let body : order_ledger * result (list order_response) :=
    match c with
    | Err e => (ledger, Err e)
    | Ok c =>
        let fetched :=
          match symbol with
          | Some s => if String.eqb s "" then Ok (collect_orders (gw_get_all_orders X c) common_symbols [])
                      else gw_get_all_orders X c s
          | None => Ok (collect_orders (gw_get_all_orders X c) common_symbols [])
          end in
        match fetched with
        | Err e => (ledger, Err e)
        | Ok os =>
            match sort_orders os with
            | Err e => (ledger, Err e)
            | Ok sorted =>
                match record_orders ledger sorted with
                | (l', Err e) => (l', Err e)
                | (l', Ok _) => (l', mapM (_create_order_response E) sorted)
                end
            end
        end
    end in
  match body with
  | (l', Ok r) => (v1, l', Ok r)
  | (l', Err e) => (v1, l', Err (BinanceAPIException ("Erro ao obter ordens: " ++ exc_str e)))
  end.

(** The exception handlers of the endpoints of [app/api/trading.py]:
    [NotFoundException] answers 404, [BinanceAPIException] 400, both with
    [str(e)]; anything else 500 with the endpoint's own prefix. *)
Definition api_trading {A : Type} (prefix : string) (r : result A) : api_result A :=
  match r with
  | Ok a => ApiOk a
  | Err (NotFoundException _ as e) => ApiErr 404 (exc_str e)
  | Err (BinanceAPIException _ as e) => ApiErr 400 (exc_str e)
  | Err e => ApiErr 500 (prefix ++ exc_str e)
  end%string.

(** The handlers [place_buy_order] and [place_sell_order] of [app/api/trading.py]
    (its router is not mounted by [main.py]). *)
Definition api_place_buy_order (E : env) (v : vault) (ledger : order_ledger)
    (symbol : string) (quantity : float) (wallet_id : string) (price : option float)
    : vault * order_ledger * api_result order_response :=
  let '(v1, l1, r) := place_buy_order E v ledger symbol quantity wallet_id price in
  (v1, l1, api_trading "Erro ao executar ordem de compra: " r).
Definition api_place_sell_order (E : env) (v : vault) (ledger : order_ledger)
    (symbol : string) (quantity : float) (wallet_id : string) (price : option float)
    : vault * order_ledger * api_result order_response :=
  let '(v1, l1, r) := place_sell_order E v ledger symbol quantity wallet_id price in
  (v1, l1, api_trading "Erro ao executar ordem de venda: " r).

(** [OrderList] *)
Record order_list := mk_order_list {
  ol_orders : list order_response;
  ol_count : Z;
  ol_timestamp : string }.

(** The handler [get_orders] of [app/api/trading.py] *)
Definition api_get_orders (E : env) (X : env_ext) (v : vault) (ledger : order_ledger)
    (wallet_id : string) (symbol : option string)
    : vault * order_ledger * api_result order_list :=
  let '(v1, l1, r) := get_orders E X v ledger wallet_id symbol in
  let r' := match r with
            | Ok orders => Ok (mk_order_list orders (Z.of_nat (List.length orders)) (now E))
            | Err e => Err e
            end in
  (v1, l1, api_trading "Erro ao listar ordens: " r').

(** The handlers [get_order] and [cancel_order] of [app/api/trading.py] *)
Definition api_get_order (E : env) (X : env_ext) (v : vault) (ledger : order_ledger)
    (order_id wallet_id symbol : string) : vault * order_ledger * api_result order_response :=
  let '(v1, l1, r) := get_order E X v ledger order_id wallet_id symbol in
  (v1, l1, api_trading "Erro ao obter ordem: " r).
Definition api_cancel_order (E : env) (X : env_ext) (v : vault) (ledger : order_ledger)
    (order_id wallet_id symbol : string) : vault * order_ledger * api_result order_response :=
  let '(v1, l1, r) := cancel_order E X v ledger order_id wallet_id symbol in
  (v1, l1, api_trading "Erro ao cancelar ordem: " r).

(** The answer of [start_bot] ([app/api/bot.py]) on success. *)
Record bot_started := mk_bot_started {
  bs_status : string;
  bs_config : bot_config;
  bs_start_time : option string;
  bs_symbol : string;
  bs_wallet_id : string;
  bs_timestamp : string }.

(** The handler [start_bot] of [app/api/bot.py].  Its [HTTPException] for a
    [False] result is not a [BinanceAPIException], so its own
    [except Exception] turns it into ["Erro ao iniciar o bot: 500: ..."]. *)
Definition api_start_bot (E : env) (w : world) (cfg : bot_config) : world * api_result bot_started :=
  let '(w1, r) := start E w cfg in
  (w1, match r with
       | Ok true =>
           ApiOk (mk_bot_started "started" cfg (start_time (bot w1)) (symbol cfg)
                    (wallet_id cfg) (now E))
       | Ok false => ApiErr 500 "Erro ao iniciar o bot: 500: Falha ao iniciar o bot"
       | Err (ValueError _ as e) | Err (BinanceAPIException _ as e) => ApiErr 400 (exc_str e)
       | Err e => ApiErr 500 ("Erro ao iniciar o bot: " ++ exc_str e)
       end)%string.

(** The answer of [test_connection] ([app/api/binance.py]). *)
Record connection_test := mk_connection_test {
  ct_is_connected : bool;
  ct_timestamp : string }.

(** [POST /api/binance/test-connection]: every exception answers 500. *)
Definition api_test_connection (E : env) (api_key api_secret : string) (use_testnet : bool)
    : api_result connection_test :=
  match (c ← get_binance_client E api_key api_secret (PyBool use_testnet);
         test_connection E c) with
  | Ok is_connected => ApiOk (mk_connection_test is_connected (now E))
  | Err e => ApiErr 500 ("Erro ao testar conexão: " ++ exc_str e)
  end%string.

(** The field validators of [OrderRequest] ([app/models/trading.py]) and
    [BotConfig] ([app/models/bot.py]). *)
Definition quantity_must_be_positive (v : float) : result float :=
  if (v <=? 0)%float then Err (ValueError "A quantidade deve ser maior que zero") else Ok v.

Definition price_must_be_positive (v : option float) : result (option float) :=
  match v with
  | Some x => if (x <=? 0)%float then Err (ValueError "O preço deve ser maior que zero") else Ok v
  | None => Ok v
  end.

Definition interval_must_be_positive (v : Z) : result Z :=
  if (v <? 5)%Z then Err (ValueError "O intervalo deve ser de pelo menos 5 segundos") else Ok v.

Definition amount_must_be_positive (v : float) : result float :=
  if (v <=? 0)%float then Err (ValueError "O valor máximo deve ser maior que zero") else Ok v.

(* ------------------------------------------------------------------------ *)
(** * Properties *)

(** ** Small concrete checks *)

Definition demo_cfg (t_buy : option float) : bot_config :=
  mk_bot_config "BTCUSDT" 60 10 "MTIzNDU2Nzg=" SIMPLE t_buy None.

Example simple_buy_99 :
  _execute_simple_strategy (demo_cfg None) 100 99 = Ok (OpBuySignal 1 100 99).
Proof. vm_compute. reflexivity. Qed.

Example simple_sell_101 :
  _execute_simple_strategy (demo_cfg None) 100 101 = Ok (OpSellSignal 1 100 101).
Proof. vm_compute. reflexivity. Qed.

Example simple_none_100_3 :
  signal_of <$> _execute_simple_strategy (demo_cfg None) 100 100.3 = Ok SigNONE.
Proof. vm_compute. reflexivity. Qed.

(** ** Helper lemmas *)

Lemma push_history_length (h : list price_sample) (s : price_sample) :
  (List.length h <= 100)%nat -> (List.length (push_history h s) <= 100)%nat.
Proof.
  unfold push_history. intros H.
  destruct (Nat.ltb_spec 100 (List.length (h ++ [s]))) as [Hlt|Hge].
  - destruct h as [|x h']; simpl in *; [lia|]. rewrite List.length_app in *. simpl in *. lia.
  - lia.
Qed.

Lemma push_history_full (h : list price_sample) (s : price_sample) :
  List.length h = 100%nat -> push_history h s = List.tl h ++ [s].
Proof.
  intros H. unfold push_history. rewrite List.length_app, H. simpl.
  destruct h as [|x h']; [discriminate|reflexivity].
Qed.

Lemma execute_strategy_history (E : env) (w : world) :
  price_history (bot (fst (_execute_strategy E w))) = price_history (bot w) \/
  exists s, price_history (bot (fst (_execute_strategy E w))) = push_history (price_history (bot w)) s.
Proof.
  unfold _execute_strategy.
  destruct (config (bot w)) as [cfg|]; [|left; reflexivity].
  destruct (fetch_price E (vault_of w) cfg) as [p|e]; [|left; reflexivity].
  right. eexists.
  destruct (strategy_dispatch _ _ _); reflexivity.
Qed.

Lemma loop_exit_history (b : bot_state) :
  price_history (loop_exit b) = price_history b.
Proof. unfold loop_exit. destruct (status b); reflexivity. Qed.

Lemma loop_iteration_history (E : env) (w : world) :
  price_history (bot (fst (loop_iteration E w))) = price_history (bot w) \/
  exists s, price_history (bot (fst (loop_iteration E w))) = push_history (price_history (bot w)) s.
Proof.
  unfold loop_iteration.
  destruct (config (bot w)) as [cfg|] eqn:Hc; [|left; reflexivity].
  pose proof (execute_strategy_history E w) as Hh.
  destruct (_execute_strategy E w) as [w' [u|e]]; simpl in *; [exact Hh|].
  destruct e; exact Hh.
Qed.

Lemma loop_step_history (E : env) (w : world) :
  price_history (bot (run_bot_loop_step E w)) = price_history (bot w) \/
  exists s, price_history (bot (run_bot_loop_step E w)) = push_history (price_history (bot w)) s.
Proof.
  unfold run_bot_loop_step.
  destruct (thread_alive (bot w)); [|left; reflexivity]. simpl.
  pose proof (loop_iteration_history E w) as Hh.
  destruct (loop_iteration E w) as [w' [|]]; simpl in Hh;
    destruct (stop_event (bot w)); cbn -[loop_exit]; rewrite ?loop_exit_history; exact Hh.
Qed.

Lemma start_bot_cases (E : env) (w : world) (cfg : bot_config) :
  bot (fst (start E w cfg)) = bot w \/
  exists p, bot (fst (start E w cfg)) = started_state E cfg p.
Proof.
  unfold start.
  destruct (thread_alive (bot w)); [left; reflexivity|].
  destruct (get_wallet (vault_of w) (wallet_id cfg)) as [v1 [info|e]].
  - destruct (wallet_missing v1 info); [left; reflexivity|].
    destruct (fetch_price E v1 cfg) as [p|e]; [right; eexists; reflexivity|left; reflexivity].
  - left; reflexivity.
Qed.

Lemma stop_history (joined : bool) (w : world) :
  price_history (bot (fst (stop joined w))) = price_history (bot w).
Proof.
  unfold stop. destruct (thread_alive (bot w)); [|reflexivity]. simpl.
  destruct joined; [|reflexivity]. unfold loop_exit. simpl. destruct (status (bot w)); reflexivity.
Qed.

Lemma step_history_bounded (w w' : world) :
  step w w' ->
  (List.length (price_history (bot w)) <= 100)%nat ->
  (List.length (price_history (bot w')) <= 100)%nat.
Proof.
  intros Hs H. destruct Hs.
  - destruct (start_bot_cases E w cfg) as [-> | [p ->]]; simpl; lia.
  - rewrite stop_history. exact H.
  - destruct (loop_step_history E w) as [-> | [s ->]]; [exact H|].
    apply push_history_length, H.
  - exact H.
  - exact H.
  - exact H.
Qed.

(** ** C5: the price history is a FIFO buffer of at most 100 samples *)

(** C5. In every reachable state the price history holds at most 100 samples,
    and pushing a sample onto a history of 100 entries drops exactly the oldest
    one and leaves the new sample last. *)
Theorem price_history_bounded_fifo (w : world) (Hw : reachable w) :
  (List.length (price_history (bot w)) <= 100)%nat /\
  forall s : price_sample,
    List.length (price_history (bot w)) = 100%nat ->
    push_history (price_history (bot w)) s = List.tl (price_history (bot w)) ++ [s] /\
    List.length (push_history (price_history (bot w)) s) = 100%nat /\
    last (push_history (price_history (bot w)) s) = Some s.
Proof.
  split.
  - induction Hw as [key|w w' Hw IH Hs].
    + simpl. lia.
    + exact (step_history_bounded w w' Hs IH).
  - intros s Hlen. rewrite push_history_full by exact Hlen.
    split; [reflexivity|]. split.
    + rewrite List.length_app. destruct (price_history (bot w)) as [|x h]; simpl in *; lia.
    + apply last_snoc.
Qed.

(** ** Concrete processes for the witnesses *)

Definition demo_env (price : result float) : env :=
  mk_env "" "" true "2026-01-01T00:00:00"
    (fun _ => Ok tt) (fun _ => Ok tt) (fun _ _ => price)
    (fun _ _ => Ok ∅) (fun _ => Ok []).

Definition demo_ok : env := demo_env (Ok 100%float).
Definition demo_price_down : env :=
  demo_env (Err (BinanceAPIException "Erro ao obter preço para BTCUSDT: APIError(code=-1121)")).

(** A process with one wallet connected (id [b64encode("12345678")]). *)
Definition demo_world : world :=
  with_vault (fst (connect_wallet demo_ok (vault_of (init_world "K1")) "APIKEY12345678" "SECRET" None true))
    (init_world "K1").

(** ** C3: a second start while the loop is alive *)

(** C3. After a successful [start], the loop thread is alive; while it is,
    every [start] raises the already-running [ValueError] and returns the
    world unchanged, so [start_time] keeps the first run's value. *)
Theorem start_twice_already_running (E E' : env) (w w1 : world) (cfg cfg' : bot_config)
    (Hvalid : bot_config_valid cfg = true)
    (Hstart : start E w cfg = (w1, Ok true)) :
  (forall w2 : world, thread_alive (bot w2) = true ->
     start E' w2 cfg' = (w2, Err (ValueError already_running_msg))) /\
  thread_alive (bot w1) = true /\
  start E' w1 cfg' = (w1, Err (ValueError already_running_msg)) /\
  start_time (bot (fst (start E' w1 cfg'))) = Some (now E).
Proof.
  assert (Hrej : forall w2 : world, thread_alive (bot w2) = true ->
            start E' w2 cfg' = (w2, Err (ValueError already_running_msg))).
  { intros w2 H2. unfold start. rewrite H2. reflexivity. }
  assert (Hw1 : exists p v1, w1 = with_bot (started_state E cfg p) (with_vault v1 w)).
  { unfold start in Hstart.
    destruct (thread_alive (bot w)); [discriminate|].
    destruct (get_wallet (vault_of w) (wallet_id cfg)) as [v1 [info|e]]; [|discriminate].
    destruct (wallet_missing v1 info); [discriminate|].
    destruct (fetch_price E v1 cfg) as [p|e]; [|discriminate].
    injection Hstart as <-. eauto. }
  destruct Hw1 as (p & v1 & ->).
  split; [exact Hrej|]. split; [reflexivity|].
  rewrite Hrej by reflexivity. split; reflexivity.
Qed.

Lemma start_twice_already_running_witness :
  bot_config_valid (demo_cfg None) = true /\
  start demo_ok demo_world (demo_cfg None) = (fst (start demo_ok demo_world (demo_cfg None)), Ok true) /\
  thread_alive (bot (fst (start demo_ok demo_world (demo_cfg None)))) = true.
Proof.
  split; [vm_compute; reflexivity|]. split; [vm_compute; reflexivity|].
  apply (start_twice_already_running demo_ok demo_ok demo_world
           (fst (start demo_ok demo_world (demo_cfg None))) (demo_cfg None) (demo_cfg None)).
  - vm_compute; reflexivity.
  - vm_compute; reflexivity.
Defined.

(** ** C4: a failed validation probe leaves the bot untouched *)

(** C4. When the wallet lookup of [start] succeeds but the price probe
    raises, [start] raises [ValueError("Símbolo inválido ou erro de
    conexão: ...")] and the bot state (status, config, start time, last price,
    last operation, price history, ...) is exactly the one before the call. *)
Theorem start_probe_failure_no_mutation (E : env) (w : world) (cfg : bot_config)
    (v1 : vault) (info : option loc) (e : exc)
    (Hidle : thread_alive (bot w) = false)
    (Hlookup : get_wallet (vault_of w) (wallet_id cfg) = (v1, Ok info))
    (Hfound : wallet_missing v1 info = false)
    (Hprobe : fetch_price E v1 cfg = Err e) :
  snd (start E w cfg) = Err (ValueError (invalid_symbol_msg ++ exc_str e)) /\
  bot (fst (start E w cfg)) = bot w.
Proof.
  unfold start. rewrite Hidle, Hlookup, Hfound, Hprobe. split; reflexivity.
Qed.

Lemma start_probe_failure_no_mutation_witness :
  snd (start demo_price_down demo_world (demo_cfg None)) =
    Err (ValueError (invalid_symbol_msg ++
      exc_str (BinanceAPIException "Erro ao obter preço para BTCUSDT: APIError(code=-1121)"))) /\
  bot (fst (start demo_price_down demo_world (demo_cfg None))) = bot demo_world.
Proof.
  apply (start_probe_failure_no_mutation demo_price_down demo_world (demo_cfg None)
           (fst (get_wallet (vault_of demo_world) "MTIzNDU2Nzg=")) (Some 2%positive)).
  - vm_compute; reflexivity.
  - vm_compute; reflexivity.
  - vm_compute; reflexivity.
  - vm_compute; reflexivity.
Defined.

(** ** C1: a failing gateway call inside a loop iteration *)

(** C1 (as the code behaves). When the exchange call of an iteration raises,
    [_execute_strategy] catches it and only writes it to [last_operation]: the
    status, the error message and the thread are untouched, so the loop goes
    on to its next iteration. *)
Theorem loop_gateway_error_swallowed (E : env) (w : world) (cfg : bot_config) (e : exc)
    (Halive : thread_alive (bot w) = true)
    (Hnostop : stop_event (bot w) = false)
    (Hcfg : config (bot w) = Some cfg)
    (Hfail : fetch_price E (vault_of w) cfg = Err e) :
  run_bot_loop_step E w = with_bot (set_last_operation (Some (strategy_error e)) (bot w)) w /\
  status (bot (run_bot_loop_step E w)) = status (bot w) /\
  error_message (bot (run_bot_loop_step E w)) = error_message (bot w) /\
  thread_alive (bot (run_bot_loop_step E w)) = true.
Proof.
  assert (Hstep : run_bot_loop_step E w =
                  with_bot (set_last_operation (Some (strategy_error e)) (bot w)) w).
  { unfold run_bot_loop_step. rewrite Halive, Hnostop. simpl.
    unfold loop_iteration, _execute_strategy. rewrite Hcfg, Hfail. reflexivity. }
  rewrite Hstep. simpl. auto.
Qed.

(** The running demo bot, its price feed then failing. *)
Definition demo_running : world := fst (start demo_ok demo_world (demo_cfg None)).

Lemma loop_gateway_error_swallowed_witness :
  status (bot (run_bot_loop_step demo_price_down demo_running)) = RUNNING /\
  error_message (bot (run_bot_loop_step demo_price_down demo_running)) = None /\
  thread_alive (bot (run_bot_loop_step demo_price_down demo_running)) = true.
Proof.
  destruct (loop_gateway_error_swallowed demo_price_down demo_running (demo_cfg None)
              (BinanceAPIException "Erro ao obter preço para BTCUSDT: APIError(code=-1121)"))
    as (_ & H1 & H2 & H3).
  - vm_compute; reflexivity.
  - vm_compute; reflexivity.
  - vm_compute; reflexivity.
  - vm_compute; reflexivity.
  - rewrite H1, H2. split; [vm_compute; reflexivity|]. split; [vm_compute; reflexivity|exact H3].
Defined.

(** The same run, scheduled on: after the failure the next iteration reads
    the price again and records it. *)
Example loop_retries_after_failure :
  let w := run_bot_loop [demo_price_down; demo_ok] demo_running in
  status (bot w) = RUNNING /\ thread_alive (bot w) = true /\
  last_operation (bot w) = Some (OpAnalysis 100 0) /\ List.length (price_history (bot w)) = 1%nat.
Proof. vm_compute. repeat split. Qed.

(** ** C9: the percent change never divides by a zero previous price *)

(** C9. With no previous price or a previous price of 0.0 (or -0.0) the
    iteration only records the observed price; otherwise the divisor is that
    non-zero price, so the strategies never raise [ZeroDivisionError] (indeed
    never raise), and after a fetched price the iteration's note is never an
    error note. *)
Theorem previous_price_guard (cfg : bot_config) (last : option float) (current : float) :
  ((match last with None => True | Some l => (l =? 0)%float = true end) ->
     strategy_dispatch cfg last current = Ok (OpMonitoring current)) /\
  (forall e, strategy_dispatch cfg last current <> Err e) /\
  (forall (E : env) (w : world),
     config (bot w) = Some cfg -> last_price (bot w) = last ->
     fetch_price E (vault_of w) cfg = Ok current ->
     exists op, last_operation (bot (fst (_execute_strategy E w))) = Some op /\
       strategy_dispatch cfg last current = Ok op /\
       forall e, op <> strategy_error e).
Proof.
  assert (Hok : exists op, strategy_dispatch cfg last current = Ok op /\
                           forall e, op <> strategy_error e).
  { unfold strategy_dispatch.
    destruct last as [l|]; [|eexists; split; [reflexivity|discriminate]].
    destruct (float_truthy l) eqn:Ht; [|eexists; split; [reflexivity|discriminate]].
    unfold float_truthy in Ht. apply negb_true_iff in Ht.
    destruct (strategy cfg).
    - unfold _execute_simple_strategy, py_fdiv. rewrite Ht. simpl.
      destruct (_ <=? _)%float; [|destruct (_ <=? _)%float];
        (eexists; split; [reflexivity|discriminate]).
    - unfold _execute_grid_strategy, py_fdiv. rewrite Ht. simpl.
      eexists; split; [reflexivity|discriminate]. }
  split; [|split].
  - intros H. unfold strategy_dispatch. destruct last as [l|]; [|reflexivity].
    unfold float_truthy. rewrite H. reflexivity.
  - intros e He. destruct Hok as (op & Hop & _). congruence.
  - intros E w Hc Hl Hf. destruct Hok as (op & Hop & Hne).
    exists op. split; [|split; assumption].
    unfold _execute_strategy. rewrite Hc, Hf. simpl. rewrite Hl, Hop. reflexivity.
Qed.

Lemma previous_price_guard_witness :
  strategy_dispatch (demo_cfg None) (Some 0%float) 99 = Ok (OpMonitoring 99) /\
  strategy_dispatch (demo_cfg None) None 99 = Ok (OpMonitoring 99).
Proof.
  split.
  - apply (previous_price_guard (demo_cfg None) (Some 0%float) 99). vm_compute; reflexivity.
  - apply (previous_price_guard (demo_cfg None) None 99). exact I.
Defined.

(** ** C6: the SIMPLE strategy's thresholds *)

(** C6 (failing input). An explicitly configured buy threshold of 0.0 is
    replaced by the default 0.5 ([buy_threshold or 0.5]): from 100 to 99.9 the
    change is about -0.1%, which is <= -0.0, yet no buy signal is emitted. *)
Theorem zero_buy_threshold_ignored :
  ((((99.9 - 100) / 100) * 100) <=? - 0)%float = true /\
  signal_of <$> _execute_simple_strategy (demo_cfg (Some 0%float)) 100 99.9 = Ok SigNONE.
Proof. vm_compute. split; reflexivity. Qed.

(** ** The vault: frame lemmas *)

(** Every wallet points below the allocation frontier of the heap. *)
Definition wf_vault (v : vault) : Prop :=
  forall (id : string) (l : loc), wallets v !! id = Some l -> (l < next_loc v)%positive.

Lemma dict_pop_at_frame (v : vault) (l : loc) (k : string) :
  enc_key (fst (dict_pop_at v l k)) = enc_key v /\
  wallets (fst (dict_pop_at v l k)) = wallets v /\
  next_loc (fst (dict_pop_at v l k)) = next_loc v /\
  forall l0, l0 <> l -> heap (fst (dict_pop_at v l k)) !! l0 = heap v !! l0.
Proof.
  unfold dict_pop_at. destruct (deref v l !! k); simpl; [|auto].
  repeat split. intros l0 Hne. rewrite lookup_insert_ne; auto.
Qed.

(** [get_wallet] only writes the fresh copy: the vault's key, its wallet
    dict and every object below the old frontier are unchanged. *)
Lemma get_wallet_frame_eq (v v' : vault) (id : string) (r : result (option loc)) :
  get_wallet v id = (v', r) ->
  enc_key v' = enc_key v /\ wallets v' = wallets v /\
  (next_loc v <= next_loc v')%positive /\
  forall l0, (l0 < next_loc v)%positive -> heap v' !! l0 = heap v !! l0.
Proof.
  unfold get_wallet. destruct (wallets v !! id) as [l|].
  2:{ intros [= <- _]. repeat split; auto; lia. }
  unfold alloc.
  set (v1 := mk_vault (enc_key v) (wallets v) (<[next_loc v := deref v l]> (heap v))
                      (Pos.succ (next_loc v))).
  assert (H1 : enc_key v1 = enc_key v /\ wallets v1 = wallets v /\
               next_loc v1 = Pos.succ (next_loc v) /\
               forall l0, (l0 < next_loc v)%positive -> heap v1 !! l0 = heap v !! l0).
  { subst v1; simpl. repeat split. intros l0 Hl0. rewrite lookup_insert_ne; [auto|lia]. }
  destruct H1 as (K1 & W1 & N1 & H1).
  destruct (dict_pop_at_frame v1 (next_loc v) "api_key") as (Ka & Wa & Na & Ha).
  destruct (dict_pop_at v1 (next_loc v) "api_key") as [v2 r2]. simpl in Ka, Wa, Na, Ha.
  destruct (dict_pop_at_frame v2 (next_loc v) "api_secret") as (Kb & Wb & Nb & Hb).
  destruct r2 as [x|e].
  - destruct (dict_pop_at v2 (next_loc v) "api_secret") as [v3 r3]. simpl in Kb, Wb, Nb, Hb.
    destruct r3; intros [= <- _]; (split; [congruence|]); (split; [congruence|]);
      (split; [subst v1; simpl in *; lia|]);
      intros l0 Hl0; rewrite Hb, Ha, H1 by lia; reflexivity.
  - intros [= <- _]. (split; [congruence|]); (split; [congruence|]); (split; [subst v1; simpl in *; lia|]).
    intros l0 Hl0; rewrite Ha, H1 by lia; reflexivity.
Qed.

Lemma get_wallet_frame (v : vault) (id : string) :
  enc_key (fst (get_wallet v id)) = enc_key v /\
  wallets (fst (get_wallet v id)) = wallets v /\
  (next_loc v <= next_loc (fst (get_wallet v id)))%positive /\
  forall l0, (l0 < next_loc v)%positive -> heap (fst (get_wallet v id)) !! l0 = heap v !! l0.
Proof.
  destruct (get_wallet v id) as [v' r] eqn:E. exact (get_wallet_frame_eq v v' id r E).
Qed.

Lemma get_wallet_wf (v : vault) (id : string) :
  wf_vault v -> wf_vault (fst (get_wallet v id)).
Proof.
  intros Hwf id' l Hl. destruct (get_wallet_frame v id) as (_ & Hw & Hn & _).
  rewrite Hw in Hl. specialize (Hwf id' l Hl). lia.
Qed.

Lemma read_credentials_frame (v v' : vault) (id : string) :
  enc_key v' = enc_key v -> wallets v' = wallets v ->
  (forall l, wallets v !! id = Some l -> heap v' !! l = heap v !! l) ->
  read_credentials v' id = read_credentials v id.
Proof.
  intros Hk Hw Hh. unfold read_credentials, wallet_entry, _decrypt, deref.
  rewrite Hw, Hk. destruct (wallets v !! id) as [l|] eqn:El; [|reflexivity].
  rewrite (Hh l eq_refl). reflexivity.
Qed.

Lemma get_wallet_read_credentials (v : vault) (id id' : string) :
  wf_vault v -> read_credentials (fst (get_wallet v id)) id' = read_credentials v id'.
Proof.
  intros Hwf. destruct (get_wallet_frame v id) as (Hk & Hw & _ & Hh).
  apply read_credentials_frame; auto.
  intros l Hl. apply Hh. exact (Hwf id' l Hl).
Qed.

Lemma connect_wallet_wf (E : env) (v : vault) (k s : string) (n : option string) (t : bool) :
  wf_vault v -> wf_vault (fst (connect_wallet E v k s n t)).
Proof.
  intros Hwf. unfold connect_wallet.
  destruct (c ← get_binance_client E k s (PyBool t); test_connection E c) as [[|]|e];
    simpl; [|exact Hwf|exact Hwf].
  intros id l Hl. simpl in Hl. destruct (decide (id = wallet_id_of k)) as [->|Hne].
  - rewrite lookup_insert_eq in Hl. injection Hl as <-. simpl. lia.
  - rewrite lookup_insert_ne in Hl by congruence. simpl. specialize (Hwf id l Hl). lia.
Qed.

Lemma start_vault_cases (E : env) (w : world) (cfg : bot_config) :
  vault_of (fst (start E w cfg)) = vault_of w \/
  vault_of (fst (start E w cfg)) = fst (get_wallet (vault_of w) (wallet_id cfg)).
Proof.
  unfold start. destruct (thread_alive (bot w)); [left; reflexivity|]. right.
  destruct (get_wallet (vault_of w) (wallet_id cfg)) as [v1 [info|e]]; [|reflexivity].
  destruct (wallet_missing v1 info); [reflexivity|].
  destruct (fetch_price E v1 cfg); reflexivity.
Qed.

Lemma execute_strategy_vault (E : env) (w : world) :
  vault_of (fst (_execute_strategy E w)) = vault_of w.
Proof.
  unfold _execute_strategy. destruct (config (bot w)); [|reflexivity].
  destruct (fetch_price _ _ _); [|reflexivity].
  destruct (strategy_dispatch _ _ _); reflexivity.
Qed.

Lemma loop_step_vault (E : env) (w : world) :
  vault_of (run_bot_loop_step E w) = vault_of w.
Proof.
  assert (Hi : vault_of (fst (loop_iteration E w)) = vault_of w).
  { unfold loop_iteration. destruct (config (bot w)); [|reflexivity].
    pose proof (execute_strategy_vault E w) as Hv.
    destruct (_execute_strategy E w) as [w' [u|e]]; simpl in *; exact Hv. }
  unfold run_bot_loop_step. destruct (thread_alive (bot w)); [|reflexivity].
  destruct (loop_iteration E w) as [w' [|]]; simpl in Hi;
    destruct (stop_event (bot w)); exact Hi.
Qed.

Lemma place_step_vault side what E sym q wid p (w : world) :
  vault_of (place_step side what E sym q wid p w) = fst (get_wallet (vault_of w) wid).
Proof.
  unfold place_step, place_order, _get_binance_client_from_wallet.
  destruct (get_wallet (vault_of w) wid) as [v1 r1]. simpl.
  destruct r1 as [info|e]; [destruct (wallet_missing v1 info)|]; simpl;
  match goal with
  | |- context [match ?c with Ok _ => _ | Err _ => _ end] => destruct c
  | _ => idtac
  end; try reflexivity;
  repeat match goal with
  | |- context [match ?m with Ok _ => _ | Err _ => _ end] => destruct m
  end; reflexivity.
Qed.

Lemma reachable_wf (w : world) : reachable w -> wf_vault (vault_of w).
Proof.
  induction 1 as [key|w w' Hw IH Hs].
  - intros id l Hl. simpl in Hl. rewrite lookup_empty in Hl. discriminate.
  - destruct Hs.
    + destruct (start_vault_cases E w cfg) as [-> | ->]; [exact IH|apply get_wallet_wf, IH].
    + unfold stop. destruct (negb (thread_alive (bot w))); exact IH.
    + rewrite loop_step_vault. exact IH.
    + apply connect_wallet_wf, IH.
    + apply get_wallet_wf, IH.
    + rewrite place_step_vault. apply get_wallet_wf, IH.
Qed.

Lemma get_wallet_found (v : vault) (id : string) (l : loc) (d : pydict) :
  wallets v !! id = Some l -> heap v !! l = Some d ->
  is_Some (d !! "api_key") -> is_Some (d !! "api_secret") ->
  exists v', get_wallet v id = (v', Ok (Some (next_loc v))) /\
             deref v' (next_loc v) = delete "api_secret" (delete "api_key" d).
Proof.
  intros Hl Hd [x Hx] [y Hy]. unfold get_wallet. rewrite Hl.
  unfold alloc, dict_pop_at, deref. simpl. rewrite Hd, lookup_insert_eq, Hx. simpl.
  rewrite lookup_insert_eq, lookup_delete_ne by discriminate. rewrite Hy.
  eexists. split; [reflexivity|]. simpl. rewrite lookup_insert_eq. reflexivity.
Qed.

Lemma wallet_record_lookups (v : vault) (k s : string) (n : option string) (t : bool) (c : string) :
  wallet_record v k s n t c !! "api_key" = Some (_encrypt v k) /\
  wallet_record v k s n t c !! "api_secret" = Some (_encrypt v s) /\
  wallet_record v k s n t c !! "use_testnet" = Some (PyBool t).
Proof. repeat split; reflexivity. Qed.

(** ** C10: reading a wallet projection leaves the vault as it was *)

(** C10. In every reachable process, any sequence of [get_wallet] calls
    leaves the wallet dict, the key and every stored wallet dict (with its
    encrypted [api_key] and [api_secret]) unchanged, so credential resolution
    afterwards gives the same result as before. *)
Theorem get_wallet_no_vault_mutation (w : world) (Hw : reachable w) (ids : list string) :
  let v := vault_of w in
  let v' := foldl (fun v id => fst (get_wallet v id)) v ids in
  wallets v' = wallets v /\ enc_key v' = enc_key v /\
  (forall (id : string) (l : loc), wallets v !! id = Some l -> heap v' !! l = heap v !! l) /\
  (forall id : string, read_credentials v' id = read_credentials v id).
Proof.
  simpl. pose proof (reachable_wf w Hw) as Hwf. generalize (vault_of w) Hwf. clear w Hw Hwf.
  induction ids as [|id ids IH]; intros v Hwf; simpl; [repeat split; auto|].
  destruct (get_wallet_frame v id) as (Hk & Hws & Hn & Hh).
  destruct (IH (fst (get_wallet v id)) (get_wallet_wf v id Hwf)) as (Hw' & Hk' & Hh' & Hr').
  split; [congruence|]. split; [congruence|]. split.
  - intros id' l Hl. rewrite (Hh' id' l); [apply Hh, (Hwf id' l Hl)|]. rewrite Hws. exact Hl.
  - intros id'. rewrite Hr'. apply get_wallet_read_credentials, Hwf.
Qed.

Lemma demo_world_reachable : reachable demo_world.
Proof.
  apply (reachable_step (init_world "K1")); [constructor|].
  exact (step_connect demo_ok "APIKEY12345678" "SECRET" None true (init_world "K1")).
Qed.

Lemma run_bot_loop_reachable (Es : list env) (w : world) :
  reachable w -> reachable (run_bot_loop Es w).
Proof.
  revert w. induction Es as [|E Es IH]; intros w Hw; simpl; [exact Hw|].
  apply IH. exact (reachable_step _ _ Hw (step_loop E w)).
Qed.

Lemma demo_running_reachable : reachable demo_running.
Proof.
  exact (reachable_step _ _ demo_world_reachable (step_start demo_ok (demo_cfg None) demo_world)).
Qed.

(** The demo bot after 100 loop steps with a live price feed. *)
Definition demo_full_history : world := run_bot_loop (repeat demo_ok 100) demo_running.

Lemma price_history_bounded_fifo_witness :
  reachable demo_full_history /\
  List.length (price_history (bot demo_full_history)) = 100%nat /\
  push_history (price_history (bot demo_full_history)) (mk_price_sample 7%float "t") =
    List.tl (price_history (bot demo_full_history)) ++ [mk_price_sample 7%float "t"].
Proof.
  assert (Hr : reachable demo_full_history)
    by exact (run_bot_loop_reachable _ _ demo_running_reachable).
  assert (Hl : List.length (price_history (bot demo_full_history)) = 100%nat)
    by (vm_compute; reflexivity).
  split; [exact Hr|]. split; [exact Hl|].
  exact (proj1 (proj2 (price_history_bounded_fifo demo_full_history Hr) _ Hl)).
Defined.

Lemma get_wallet_no_vault_mutation_witness :
  reachable demo_world /\
  read_credentials
    (foldl (fun v id => fst (get_wallet v id)) (vault_of demo_world) ["MTIzNDU2Nzg="; "MTIzNDU2Nzg="])
    "MTIzNDU2Nzg=" = Ok ("APIKEY12345678", "SECRET", PyBool true).
Proof.
  split; [exact demo_world_reachable|].
  destruct (get_wallet_no_vault_mutation demo_world demo_world_reachable ["MTIzNDU2Nzg="; "MTIzNDU2Nzg="])
    as (_ & _ & _ & Hrc).
  rewrite Hrc. vm_compute. reflexivity.
Defined.

(** ** C8: reconnecting with the same key suffix overwrites *)

Lemma connect_wallet_ok (E : env) (v v' : vault) (k s : string) (n : option string) (t : bool) :
  connect_wallet E v k s n t = (v', Ok true) ->
  v' = mk_vault (enc_key v) (<[wallet_id_of k := next_loc v]> (wallets v))
         (<[next_loc v := wallet_record v k s n t (now E)]> (heap v)) (Pos.succ (next_loc v)) /\
  forall v'' : vault, snd (connect_wallet E v'' k s n t) = Ok true.
Proof.
  intros H. unfold connect_wallet in H |- *.
  destruct (get_binance_client E k s (PyBool t)) as [c|e] eqn:Hg; simpl in H |- *; [|discriminate].
  destruct (test_connection E c) as [[|]|e] eqn:Ht; simpl in H |- *; try discriminate.
  injection H as <-. split; [reflexivity|]. intros v''. reflexivity.
Qed.

(** C8. The wallet id is [b64encode(api_key[-8:])], a function of the last
    eight characters of the key alone.  Two successful [connect_wallet] calls
    whose keys share that suffix store under the same id: the second leaves
    the set of ids as it was and rebinds the id to its own new record (whose
    credentials are the second call's), and its success does not depend on
    what the vault already holds, so no collision error is raised. *)
Theorem connect_same_suffix_overwrites (E1 E2 : env) (v v1 v2 : vault)
    (k1 s1 k2 s2 : string) (n1 n2 : option string) (t1 t2 : bool)
    (H1 : connect_wallet E1 v k1 s1 n1 t1 = (v1, Ok true))
    (H2 : connect_wallet E2 v1 k2 s2 n2 t2 = (v2, Ok true))
    (Hfrag : last8 k1 = last8 k2) :
  wallet_id_of k1 = b64encode (last8 k1) /\
  wallet_id_of k2 = wallet_id_of k1 /\
  dom (wallets v2) = dom (wallets v1) /\
  wallets v1 !! wallet_id_of k1 = Some (next_loc v) /\
  wallets v2 !! wallet_id_of k1 = Some (next_loc v1) /\
  heap v2 !! next_loc v1 = Some (wallet_record v1 k2 s2 n2 t2 (now E2)) /\
  read_credentials v2 (wallet_id_of k1) = Ok (k2, s2, PyBool t2) /\
  (forall v' : vault, snd (connect_wallet E2 v' k2 s2 n2 t2) = Ok true).
Proof.
  destruct (connect_wallet_ok E1 v v1 k1 s1 n1 t1 H1) as [-> _].
  destruct (connect_wallet_ok E2 _ v2 k2 s2 n2 t2 H2) as [-> Hany].
  assert (Hid : wallet_id_of k2 = wallet_id_of k1) by (unfold wallet_id_of; rewrite Hfrag; reflexivity).
  simpl. rewrite Hid.
  split; [reflexivity|]. split; [reflexivity|].
  split.
  { rewrite (dom_insert_L (<[wallet_id_of k1:=next_loc v]> (wallets v))).
    assert (wallet_id_of k1 ∈ dom (<[wallet_id_of k1:=next_loc v]> (wallets v))).
    { apply elem_of_dom. rewrite lookup_insert_eq. eauto. }
    set_solver. }
  split; [apply lookup_insert_eq|]. split; [apply lookup_insert_eq|].
  split; [apply lookup_insert_eq|]. split; [|exact Hany].
  unfold read_credentials, wallet_entry, deref. simpl.
  rewrite !lookup_insert_eq. simpl.
  destruct (wallet_record_lookups
              (mk_vault (enc_key v) (<[wallet_id_of k1:=next_loc v]> (wallets v))
                 (<[next_loc v:=wallet_record v k1 s1 n1 t1 (now E1)]> (heap v)) (Pos.succ (next_loc v)))
              k2 s2 n2 t2 (now E2)) as (Ha & Hs & Ht).
  unfold py_getitem. rewrite Ha, Hs, Ht. simpl. rewrite String.eqb_refl. reflexivity.
Qed.

Definition demo_world2 : world :=
  with_vault (fst (connect_wallet demo_ok (vault_of demo_world) "OTHERKEY12345678" "SECRET2" None false))
    demo_world.

Lemma connect_same_suffix_overwrites_witness :
  read_credentials (vault_of demo_world2) "MTIzNDU2Nzg=" = Ok ("OTHERKEY12345678", "SECRET2", PyBool false) /\
  dom (wallets (vault_of demo_world2)) = dom (wallets (vault_of demo_world)).
Proof.
  destruct (connect_same_suffix_overwrites demo_ok demo_ok (vault_of (init_world "K1"))
              (vault_of demo_world) (vault_of demo_world2)
              "APIKEY12345678" "SECRET" "OTHERKEY12345678" "SECRET2" None None true false)
    as (_ & _ & Hdom & _ & _ & _ & Hrc & _).
  - vm_compute; reflexivity.
  - vm_compute; reflexivity.
  - vm_compute; reflexivity.
  - split; [|exact Hdom].
    assert (Hw : wallet_id_of "APIKEY12345678" = "MTIzNDU2Nzg=") by (vm_compute; reflexivity).
    rewrite Hw in Hrc. exact Hrc.
Defined.

(** ** C7: order type sent and price returned *)

Lemma result_bind_ok {A B} (m : result A) (f : A -> result B) (b : B) :
  (m ≫= f) = Ok b -> exists a, m = Ok a /\ f a = Ok b.
Proof. destruct m as [a|e]; simpl; [eauto|discriminate]. Qed.

(** When the mapping succeeds, the returned price is [None] exactly when the
    response's [price] field is falsy. *)
Lemma map_order_response_price (E : env) (od : pydict) (r : order_response) :
  map_order_response E od = Ok r ->
  (price r = None <-> py_truthy (py_get od "price" PyNone) = false).
Proof.
  unfold map_order_response. intros H. cbv zeta in H.
  repeat (apply result_bind_ok in H; destruct H as [? [? H]]).
  injection H as <-. simpl.
  match goal with Hp : (if py_truthy (py_get od "price" PyNone) then _ else _) = Ok _ |- _ =>
    destruct (py_truthy (py_get od "price" PyNone)); simpl in Hp end.
  - match goal with Hp : (_ ≫= _) = Ok ?p |- context [?p] =>
      apply result_bind_ok in Hp; destruct Hp as [? [_ Hp]]; injection Hp as <- end.
    split; discriminate.
  - match goal with Hp : Ok None = Ok ?p |- context [?p] => injection Hp as <- end. tauto.
Qed.

(** C7. A buy or sell call that returns a record submitted
    [order_request_of symbol side quantity price]: MARKET without a
    time-in-force when [price] is [None], LIMIT with GTC and the price when it
    is set.  The record's [price] is [None] exactly when the exchange
    response's [price] field is falsy or the response cannot be mapped (then
    the fallback record, typed MARKET, is returned), whatever was submitted. *)
Theorem place_order_type_and_price (sd what : string) (E : env) (v v' : vault)
    (ledger ledger' : order_ledger) (symbol : string) (quantity : float)
    (wallet_id : string) (p : option float) (r : order_response)
    (H : place_order sd what E v ledger symbol quantity wallet_id p = (v', ledger', Ok r)) :
  order_request_of symbol sd quantity p =
    match p with
    | Some x => mk_order_request symbol sd "LIMIT" (Some "GTC") quantity (Some x)
    | None => mk_order_request symbol sd "MARKET" None quantity None
    end /\
  exists c od,
    gw_create_order E c (order_request_of symbol sd quantity p) = Ok od /\
    _create_order_response E od = Ok r /\
    (price r = None <->
       py_truthy (py_get od "price" PyNone) = false \/ exists e, map_order_response E od = Err e) /\
    ((exists e, map_order_response E od = Err e) -> type r = MARKET /\ side r = BUY).
Proof.
  split; [destruct p; reflexivity|].
  unfold place_order in H.
  destruct (_get_binance_client_from_wallet E v wallet_id) as [v1 [c|e]]; [|discriminate].
  destruct (gw_create_order E c (order_request_of symbol sd quantity p)) as [od|e] eqn:Hod;
    [|discriminate].
  destruct (py_getitem od "orderId") as [oid|e]; [|discriminate].
  destruct (_create_order_response E od) as [r'|e] eqn:Hr; [|discriminate].
  injection H as _ _ <-.
  exists c, od. split; [exact Hod|]. split; [exact Hr|].
  unfold _create_order_response in Hr.
  destruct (map_order_response E od) as [m|e] eqn:Hm.
  - injection Hr as <-. rewrite (map_order_response_price E od m Hm).
    split; [split; [tauto|intros [? | [? ?]]; [assumption|discriminate]]|].
    intros [? ?]; discriminate.
  - apply result_bind_ok in Hr; destruct Hr as [q [_ Hr]].
    apply result_bind_ok in Hr; destruct Hr as [sym [_ Hr]].
    injection Hr as <-. simpl. split; [split; [eauto|reflexivity]|]. auto.
Qed.

(** An exchange that answers a LIMIT submission with a status outside the
    [OrderStatus] enum. *)
Definition demo_expired_order : pydict :=
  <["orderId" := PyInt 7]> (<["symbol" := PyStr "BTCUSDT"]> (<["side" := PyStr "BUY"]>
  (<["type" := PyStr "LIMIT"]> (<["status" := PyStr "EXPIRED_IN_MATCH"]>
  (<["origQty" := PyStr "1.0"]> (<["price" := PyStr "50000.00"]> ∅)))))).

Definition demo_expired : env :=
  mk_env "" "" true "2026-01-01T00:00:00"
    (fun _ => Ok tt) (fun _ => Ok tt) (fun _ _ => Ok 100%float)
    (fun _ _ => Ok demo_expired_order) (fun _ => Ok []).

(** A LIMIT buy at 50000 whose record comes back with no price and typed
    MARKET. *)
Lemma limit_order_price_none :
  req_type (order_request_of "BTCUSDT" "BUY" 1%float (Some 50000%float)) = "LIMIT"%string /\
  match snd (place_buy_order demo_expired (vault_of demo_world) ∅ "BTCUSDT" 1%float
               "MTIzNDU2Nzg=" (Some 50000%float)) with
  | Ok r => price r = None /\ type r = MARKET
  | Err _ => False
  end.
Proof. vm_compute. repeat split. Qed.

Lemma place_order_type_and_price_witness :
  exists r : order_response,
    snd (place_buy_order demo_expired (vault_of demo_world) ∅ "BTCUSDT" 1%float
           "MTIzNDU2Nzg=" (Some 50000%float)) = Ok r /\ price r = None.
Proof.
  destruct (place_buy_order demo_expired (vault_of demo_world) ∅ "BTCUSDT" 1%float
              "MTIzNDU2Nzg=" (Some 50000%float)) as [[v' l'] [r|e]] eqn:Hp.
  - exists r. split; [reflexivity|].
    destruct (place_order_type_and_price "BUY" "compra" demo_expired (vault_of demo_world) v' ∅ l'
                "BTCUSDT" 1%float "MTIzNDU2Nzg=" (Some 50000%float) r Hp)
      as [_ (c & od & Hod & _ & Hiff & _)].
    apply Hiff. right. simpl in Hod. injection Hod as <-.
    eexists. vm_compute. reflexivity.
  - exfalso. vm_compute in Hp. discriminate.
Defined.

(* ------------------------------------------------------------------------ *)
(** * Further properties of the code *)

(** ** The stored wallet dicts *)

(** The shape of a dict [connect_wallet] stores. *)
Definition stored_wallet (d : pydict) : Prop :=
  is_Some (d !! "api_key") /\ is_Some (d !! "api_secret") /\
  (exists n, d !! "name" = Some (PyStr n)) /\
  (exists t, d !! "use_testnet" = Some (PyBool t)) /\
  (exists c, d !! "connected_at" = Some (PyStr c)).

Definition wf_records (v : vault) : Prop :=
  forall (id : string) (l : loc), wallets v !! id = Some l ->
    exists d, heap v !! l = Some d /\ stored_wallet d.

Lemma wallet_record_stored (v : vault) (k s : string) (n : option string) (t : bool) (c : string) :
  stored_wallet (wallet_record v k s n t c).
Proof. unfold stored_wallet. repeat split; eexists; reflexivity. Qed.

Lemma records_frame (v v' : vault) :
  wf_vault v -> wf_records v -> wallets v' = wallets v ->
  (forall l0, (l0 < next_loc v)%positive -> heap v' !! l0 = heap v !! l0) ->
  wf_records v'.
Proof.
  intros Hwf Hr Hw Hh id l Hl. rewrite Hw in Hl.
  rewrite (Hh l (Hwf id l Hl)). exact (Hr id l Hl).
Qed.

Lemma get_wallet_records (v : vault) (id : string) :
  wf_vault v -> wf_records v -> wf_records (fst (get_wallet v id)).
Proof.
  intros Hwf Hr. destruct (get_wallet_frame v id) as (_ & Hw & _ & Hh).
  exact (records_frame v _ Hwf Hr Hw Hh).
Qed.

Lemma connect_wallet_records (E : env) (v : vault) (k s : string) (n : option string) (t : bool) :
  wf_vault v -> wf_records v -> wf_records (fst (connect_wallet E v k s n t)).
Proof.
  intros Hwf Hr. unfold connect_wallet.
  destruct (c ← get_binance_client E k s (PyBool t); test_connection E c) as [[|]|e];
    simpl; [|exact Hr|exact Hr].
  intros id l Hl. simpl in Hl. destruct (decide (id = wallet_id_of k)) as [->|Hne].
  - rewrite lookup_insert_eq in Hl. injection Hl as <-. simpl.
    rewrite lookup_insert_eq. eexists; split; [reflexivity|apply wallet_record_stored].
  - rewrite lookup_insert_ne in Hl by congruence. simpl.
    rewrite lookup_insert_ne by (specialize (Hwf id l Hl); lia). exact (Hr id l Hl).
Qed.

Lemma reachable_records (w : world) : reachable w -> wf_records (vault_of w).
Proof.
  intros Hw. induction Hw as [key|w w' Hw IH Hs].
  - intros id l Hl. simpl in Hl. rewrite lookup_empty in Hl. discriminate.
  - pose proof (reachable_wf w Hw) as Hwf. destruct Hs.
    + destruct (start_vault_cases E w cfg) as [-> | ->]; [exact IH|apply get_wallet_records; auto].
    + unfold stop. destruct (negb (thread_alive (bot w))); exact IH.
    + rewrite loop_step_vault. exact IH.
    + apply connect_wallet_records; auto.
    + apply get_wallet_records; auto.
    + rewrite place_step_vault. apply get_wallet_records; auto.
Qed.

(** ** C2: stored credentials always decrypt to the key they were stored for *)

(** Every stored wallet holds the tokens [connect_wallet] encrypted under the
    vault's key, the [api_key] one carrying the key its id was derived from. *)
Definition wf_tokens (v : vault) : Prop :=
  forall (id : string) (l : loc), wallets v !! id = Some l ->
    exists d k s t, heap v !! l = Some d /\
      d !! "api_key" = Some (PyToken (mk_token (enc_key v) k)) /\ wallet_id_of k = id /\
      d !! "api_secret" = Some (PyToken (mk_token (enc_key v) s)) /\
      d !! "use_testnet" = Some (PyBool t).

Lemma get_wallet_tokens (v : vault) (id : string) :
  wf_vault v -> wf_tokens v -> wf_tokens (fst (get_wallet v id)).
Proof.
  intros Hwf Ht id' l Hl. destruct (get_wallet_frame v id) as (Hk & Hw & _ & Hh).
  rewrite Hw in Hl. rewrite Hk, (Hh l (Hwf id' l Hl)). exact (Ht id' l Hl).
Qed.

Lemma connect_wallet_tokens (E : env) (v : vault) (k s : string) (n : option string) (t : bool) :
  wf_vault v -> wf_tokens v -> wf_tokens (fst (connect_wallet E v k s n t)).
Proof.
  intros Hwf Ht. unfold connect_wallet.
  destruct (c ← get_binance_client E k s (PyBool t); test_connection E c) as [[|]|e];
    simpl; [|exact Ht|exact Ht].
  intros id l Hl. simpl in Hl. destruct (decide (id = wallet_id_of k)) as [->|Hne].
  - rewrite lookup_insert_eq in Hl. injection Hl as <-. simpl.
    rewrite lookup_insert_eq. do 4 eexists. repeat split; reflexivity.
  - rewrite lookup_insert_ne in Hl by congruence. simpl.
    rewrite lookup_insert_ne by (specialize (Hwf id l Hl); lia). exact (Ht id l Hl).
Qed.

Lemma reachable_tokens (w : world) : reachable w -> wf_tokens (vault_of w).
Proof.
  intros Hw. induction Hw as [key|w w' Hw IH Hs].
  - intros id l Hl. simpl in Hl. rewrite lookup_empty in Hl. discriminate.
  - pose proof (reachable_wf w Hw) as Hwf. destruct Hs.
    + destruct (start_vault_cases E w cfg) as [-> | ->]; [exact IH|apply get_wallet_tokens; auto].
    + unfold stop. destruct (negb (thread_alive (bot w))); exact IH.
    + rewrite loop_step_vault. exact IH.
    + apply connect_wallet_tokens; auto.
    + apply get_wallet_tokens; auto.
    + rewrite place_step_vault. apply get_wallet_tokens; auto.
Qed.

(** C2. The process holds one Fernet key for its whole life and wallets live
    only in its memory, so in every reachable state the credentials of every
    stored wallet decrypt: resolving them never fails, and the [api_key] it
    yields is the very key the wallet's id was derived from, not some other
    plaintext. *)
Theorem stored_credentials_decrypt (w : world) (Hw : reachable w)
    (id : string) (l : loc) (Hl : wallets (vault_of w) !! id = Some l) :
  exists k s t, read_credentials (vault_of w) id = Ok (k, s, PyBool t) /\ wallet_id_of k = id.
Proof.
  destruct (reachable_tokens w Hw id l Hl) as (d & k & s & t & Hd & Hk & Hid & Hs & Ht).
  exists k, s, t. split; [|exact Hid].
  unfold read_credentials, wallet_entry, deref. rewrite Hl, Hd. simpl.
  unfold py_getitem. rewrite Hk. simpl. unfold _decrypt. simpl.
  rewrite String.eqb_refl. simpl. rewrite Hs. simpl. rewrite String.eqb_refl. simpl.
  rewrite Ht. reflexivity.
Qed.

Lemma stored_credentials_decrypt_witness :
  exists k s t, read_credentials (vault_of demo_world) "MTIzNDU2Nzg=" = Ok (k, s, PyBool t) /\
    wallet_id_of k = "MTIzNDU2Nzg=".
Proof.
  exact (stored_credentials_decrypt demo_world demo_world_reachable "MTIzNDU2Nzg=" 1%positive
           ltac:(vm_compute; reflexivity)).
Defined.

Lemma mapM_result_Forall2 {A B} (f : A -> result B) (l : list A) (ys : list B) :
  mapM f l = Ok ys -> Forall2 (fun x y => f x = Ok y) l ys.
Proof.
  revert ys. induction l as [|x l IH]; intros ys H; simpl in H.
  - injection H as <-. constructor.
  - destruct (f x) as [y|e] eqn:Hf; simpl in H; [|discriminate].
    destruct (mapM f l) as [ys'|e] eqn:Hm; simpl in H; [|discriminate].
    injection H as <-. constructor; auto.
Qed.

Lemma mapM_result_Ok {A B} (f : A -> result B) (l : list A) :
  (forall x, x ∈ l -> exists y, f x = Ok y) -> exists ys, mapM f l = Ok ys.
Proof.
  induction l as [|x l IH]; intros H; simpl; [eexists; reflexivity|].
  destruct (H x ltac:(constructor)) as [y ->]. simpl.
  destruct IH as [ys ->]; [intros z Hz; apply H; right; exact Hz|].
  eexists; reflexivity.
Qed.

Lemma list_wallet_entry_Ok (v : vault) (id : string) (l : loc) (d : pydict) :
  list_wallet_entry v id l = Ok d ->
  exists n t c, deref v l !! "name" = Some n /\ deref v l !! "use_testnet" = Some t /\
    deref v l !! "connected_at" = Some c /\
    d = <["id" := PyStr id]> (<["name" := n]> (<["use_testnet" := t]> (<["connected_at" := c]> ∅))).
Proof.
  unfold list_wallet_entry, py_getitem.
  destruct (deref v l !! "name") as [n|]; simpl; [|discriminate].
  destruct (deref v l !! "use_testnet") as [t|]; simpl; [|discriminate].
  destruct (deref v l !! "connected_at") as [c|]; simpl; [|discriminate].
  intros [= <-]. eauto 10.
Qed.

(** X1. In every reachable process [list_wallets] succeeds and returns one
    dict per stored wallet: its id with the stored [name], [use_testnet] and
    [connected_at], and neither encrypted credential. *)
Theorem list_wallets_without_credentials (w : world) (Hw : reachable w) :
  exists ds : list pydict,
    list_wallets (vault_of w) = Ok ds /\
    List.length ds = size (wallets (vault_of w)) /\
    (forall (wallet_id : string) (l : loc), wallets (vault_of w) !! wallet_id = Some l ->
       exists n t c,
         deref (vault_of w) l !! "name" = Some n /\
         deref (vault_of w) l !! "use_testnet" = Some t /\
         deref (vault_of w) l !! "connected_at" = Some c /\
         <["id" := PyStr wallet_id]> (<["name" := n]> (<["use_testnet" := t]>
           (<["connected_at" := c]> ∅))) ∈ ds) /\
    (forall d, d ∈ ds ->
       d !! "api_key" = None /\ d !! "api_secret" = None /\
       exists wallet_id, d !! "id" = Some (PyStr wallet_id) /\ is_Some (wallets (vault_of w) !! wallet_id)).
Proof.
  pose proof (reachable_records w Hw) as Hr.
  set (v := vault_of w) in *.
  destruct (mapM_result_Ok (fun '(wallet_id, l) => list_wallet_entry v wallet_id l)
              (map_to_list (wallets v))) as [ds Hds].
  { intros [id l] Hin. apply elem_of_map_to_list in Hin.
    destruct (Hr id l Hin) as (d & Hd & _ & _ & [n Hn] & [t Ht] & [c Hc]).
    unfold list_wallet_entry, py_getitem, deref. rewrite Hd, Hn, Ht, Hc. eexists; reflexivity. }
  pose proof (mapM_result_Forall2 _ _ _ Hds) as HF.
  exists ds. split; [exact Hds|]. split.
  { rewrite <- (Forall2_length _ _ _ HF). apply length_map_to_list. }
  split.
  - intros id l Hl. apply elem_of_map_to_list in Hl.
    apply list_elem_of_lookup_1 in Hl as [i Hi].
    destruct (Forall2_lookup_l _ _ _ i _ HF Hi) as (d & Hdi & Hd).
    destruct (list_wallet_entry_Ok v id l d Hd) as (n & t & c & Hn & Ht & Hc & ->).
    exists n, t, c. repeat split; auto. eapply list_elem_of_lookup_2; exact Hdi.
  - intros d Hd. apply list_elem_of_lookup_1 in Hd as [i Hi].
    destruct (Forall2_lookup_r _ _ _ i _ HF Hi) as ([id l] & Hxi & Hx).
    destruct (list_wallet_entry_Ok v id l d Hx) as (n & t & c & _ & _ & _ & ->).
    assert (Hin : wallets v !! id = Some l).
    { apply elem_of_map_to_list. eapply list_elem_of_lookup_2; exact Hxi. }
    split; [reflexivity|]. split; [reflexivity|].
    exists id. split; [reflexivity|]. rewrite Hin. eauto.
Qed.

Lemma list_wallets_without_credentials_witness :
  exists ds, list_wallets (vault_of demo_world) = Ok ds /\ List.length ds = 1%nat.
Proof.
  destruct (list_wallets_without_credentials demo_world demo_world_reachable)
    as (ds & Hds & Hlen & _).
  exists ds. split; [exact Hds|]. rewrite Hlen. vm_compute. reflexivity.
Defined.

(** X2. In every reachable process, [get_wallet] of an unknown id returns
    [None] and changes nothing; of a stored id it returns a fresh dict, shared
    with no stored wallet, equal to the stored dict without [api_key] and
    [api_secret], and never empty (callers take it as found), while the wallet
    dict and the stored dict itself are left as they were. *)
Theorem get_wallet_projection (w : world) (Hw : reachable w) (wallet_id : string) :
  let v := vault_of w in
  match wallets v !! wallet_id with
  | None => get_wallet v wallet_id = (v, Ok None)
  | Some l =>
      exists v', get_wallet v wallet_id = (v', Ok (Some (next_loc v))) /\
        deref v' (next_loc v) = delete "api_secret" (delete "api_key" (deref v l)) /\
        (forall (id' : string) (l' : loc), wallets v !! id' = Some l' -> l' <> next_loc v) /\
        wallet_missing v' (Some (next_loc v)) = false /\
        wallets v' = wallets v /\ deref v' l = deref v l
  end.
Proof.
  simpl. pose proof (reachable_records w Hw) as Hr. pose proof (reachable_wf w Hw) as Hwf.
  destruct (wallets (vault_of w) !! wallet_id) as [l|] eqn:Hl.
  - destruct (Hr wallet_id l Hl) as (d & Hd & Hk & Hs & [n Hn] & _).
    destruct (get_wallet_found (vault_of w) wallet_id l d Hl Hd Hk Hs) as (v' & Hg & Hdr).
    destruct (get_wallet_frame_eq _ _ _ _ Hg) as (_ & Hws & _ & Hh).
    exists v'. split; [exact Hg|].
    assert (Hdl : deref (vault_of w) l = d) by (unfold deref; rewrite Hd; reflexivity).
    rewrite Hdl. split; [exact Hdr|]. split.
    + intros id' l' Hl' ->. specialize (Hwf id' _ Hl'). lia.
    + split.
      * unfold wallet_missing. apply bool_decide_eq_false_2. rewrite Hdr. intros Hemp.
        assert (Hx : delete "api_secret" (delete "api_key" d) !! "name" = Some (PyStr n)).
        { rewrite !lookup_delete_ne by discriminate. exact Hn. }
        rewrite Hemp, lookup_empty in Hx. discriminate.
      * split; [exact Hws|]. rewrite <- Hdl. unfold deref.
        rewrite (Hh l (Hwf wallet_id l Hl)). reflexivity.
  - unfold get_wallet. rewrite Hl. reflexivity.
Qed.

Lemma get_wallet_projection_witness :
  get_wallet (vault_of demo_world) "AAAA" = (vault_of demo_world, Ok None) /\
  exists v', get_wallet (vault_of demo_world) "MTIzNDU2Nzg=" = (v', Ok (Some 2%positive)) /\
    deref v' 2 = delete "api_secret" (delete "api_key" (deref (vault_of demo_world) 1)) /\
    deref v' 1 = deref (vault_of demo_world) 1.
Proof.
  split.
  - pose proof (get_wallet_projection demo_world demo_world_reachable "AAAA") as H.
    simpl in H. exact H.
  - pose proof (get_wallet_projection demo_world demo_world_reachable "MTIzNDU2Nzg=") as H.
    cbv zeta in H.
    assert (Hl : wallets (vault_of demo_world) !! "MTIzNDU2Nzg=" = Some 1%positive)
      by (vm_compute; reflexivity).
    assert (Hn : next_loc (vault_of demo_world) = 2%positive) by (vm_compute; reflexivity).
    rewrite Hl, Hn in H. destruct H as (v' & Hg & Hd & _ & _ & _ & Hkeep).
    exists v'. split; [exact Hg|]. split; [exact Hd|exact Hkeep].
Defined.

Lemma connect_wallet_cases (E : env) (v v1 : vault) (k s : string) (n : option string) (t : bool)
    (r : result bool) :
  connect_wallet E v k s n t = (v1, r) ->
  r = Ok true \/
  (v1 = v /\ exists e0, r = Err (BinanceAPIException ("Erro ao conectar à carteira: " ++ exc_str e0))).
Proof.
  unfold connect_wallet.
  destruct (get_binance_client E k s (PyBool t)) as [c|e0]; simpl.
  - unfold test_connection. destruct (gw_ping E c) as [[]|e0]; simpl.
    + intros [= _ <-]. left. reflexivity.
    + intros [= <- <-]. right. eauto.
  - intros [= <- <-]. right. eauto.
Qed.

(** X3. [connect_wallet] never returns [False] ([test_connection] returns
    [True] or raises); when it raises, the vault is unchanged and the
    exception is a [BinanceAPIException] with the connection prefix. *)
Theorem connect_wallet_outcomes (E : env) (v : vault) (k s : string) (n : option string) (t : bool) :
  snd (connect_wallet E v k s n t) <> Ok false /\
  forall e, snd (connect_wallet E v k s n t) = Err e ->
    fst (connect_wallet E v k s n t) = v /\
    exists e0, e = BinanceAPIException ("Erro ao conectar à carteira: " ++ exc_str e0).
Proof.
  destruct (connect_wallet E v k s n t) as [v1 r] eqn:Hc. simpl.
  destruct (connect_wallet_cases E v v1 k s n t r Hc) as [-> | [-> [e0 ->]]].
  - split; [discriminate|intros e He; discriminate].
  - split; [discriminate|]. intros e [= <-]. eauto.
Qed.

(** ** Balances and the wallet endpoints *)

Definition positive_balance (b : raw_balance) : bool :=
  ((0 <? rb_free b) || (0 <? rb_locked b))%float.

Definition to_asset_balance (b : raw_balance) : asset_balance :=
  mk_asset_balance (rb_asset b) (rb_free b) (rb_locked b).

Lemma balance_fold_filter (acct : list raw_balance) :
  foldr (fun b acc =>
           if ((0 <? rb_free b)%float || (0 <? rb_locked b)%float)%bool
           then mk_asset_balance (rb_asset b) (rb_free b) (rb_locked b) :: acc
           else acc) [] acct =
  map to_asset_balance (List.filter positive_balance acct).
Proof.
  induction acct as [|b acct IH]; simpl; [reflexivity|].
  unfold positive_balance. destruct ((0 <? rb_free b)%float || (0 <? rb_locked b)%float)%bool;
    simpl; rewrite IH; reflexivity.
Qed.

Lemma get_wallet_balance_known_err (E : env) (v : vault) (wallet_id : string) (e : exc) :
  is_Some (wallets v !! wallet_id) -> get_wallet_balance E v wallet_id = Err e ->
  exists e0, e = BinanceAPIException ("Erro ao obter saldo da carteira: " ++ exc_str e0).
Proof.
  intros [l Hl]. unfold get_wallet_balance. rewrite Hl.
  destruct (_ ≫= _) as [bs|e0]; intros [= <-]. eauto.
Qed.

(** X4. [get_wallet_balance] raises the bare [ValueError] for an unknown id;
    for a stored one, every failure (decryption, client, account call) is a
    [BinanceAPIException] with the balance prefix, and a success returns the
    account's balances with a positive free or locked amount, in the
    account's order. *)
Theorem get_wallet_balance_filters (E : env) (v : vault) (wallet_id : string) :
  (wallets v !! wallet_id = None ->
   get_wallet_balance E v wallet_id = Err (ValueError "Carteira não encontrada ou não conectada")) /\
  (forall bs, get_wallet_balance E v wallet_id = Ok bs ->
     exists api_key api_secret t c acct,
       read_credentials v wallet_id = Ok (api_key, api_secret, t) /\
       get_binance_client E api_key api_secret t = Ok c /\
       gw_get_account E c = Ok acct /\
       bs = map to_asset_balance (List.filter positive_balance acct)) /\
  (forall e, is_Some (wallets v !! wallet_id) -> get_wallet_balance E v wallet_id = Err e ->
     exists e0, e = BinanceAPIException ("Erro ao obter saldo da carteira: " ++ exc_str e0)).
Proof.
  split; [intros Hn; unfold get_wallet_balance; rewrite Hn; reflexivity|].
  split; [|exact (get_wallet_balance_known_err E v wallet_id)].
  intros bs. unfold get_wallet_balance.
  destruct (wallets v !! wallet_id); [|discriminate].
  destruct (read_credentials v wallet_id) as [[[k s] t]|e] eqn:Hrc; simpl; [|discriminate].
  destruct (get_binance_client E k s t) as [c|e] eqn:Hgc; simpl; [|discriminate].
  destruct (gw_get_account E c) as [acct|e] eqn:Hacc; simpl; [|discriminate].
  intros [= <-]. exists k, s, t, c, acct. repeat split; auto. apply balance_fold_filter.
Qed.

Lemma get_wallet_some_stored (v v1 : vault) (wallet_id : string) (l : loc) :
  get_wallet v wallet_id = (v1, Ok (Some l)) -> is_Some (wallets v1 !! wallet_id).
Proof.
  intros Hg. destruct (get_wallet_frame_eq v v1 wallet_id _ Hg) as (_ & Hw & _).
  rewrite Hw. unfold get_wallet in Hg. destruct (wallets v !! wallet_id); [eauto|discriminate].
Qed.

(** X5. The balance endpoint never answers 404: its [except ValueError]
    branch is unreachable once [get_wallet] found the id, and the 404 raised
    for an unknown id is caught by its own [except Exception], so an unknown
    id is answered with 500 and a detail embedding the 404. *)
Theorem api_wallet_balance_never_404 (E : env) (v : vault) (wallet_id : string) :
  (forall d, snd (api_get_wallet_balance E v wallet_id) <> ApiErr 404%Z d) /\
  (wallets v !! wallet_id = None ->
   api_get_wallet_balance E v wallet_id =
     (v, ApiErr 500%Z ("Erro ao obter saldo da carteira: 404: Carteira com ID " ++ wallet_id
                     ++ " não encontrada"))).
Proof.
  split.
  - intros d. unfold api_get_wallet_balance.
    destruct (get_wallet v wallet_id) as [v1 [[l|]|e]] eqn:Hg; simpl; try discriminate.
    destruct (get_wallet_balance E v1 wallet_id) as [bs|e] eqn:Hb; [discriminate|].
    destruct (get_wallet_balance_known_err E v1 wallet_id e
                (get_wallet_some_stored v v1 wallet_id l Hg) Hb) as [e0 ->].
    discriminate.
  - intros Hn. unfold api_get_wallet_balance, get_wallet. rewrite Hn. reflexivity.
Qed.

(** The name [connect_wallet] stores: [wallet_name or f"Wallet-{wallet_id[:6]}"]. *)
Definition stored_name (api_key : string) (wallet_name : option string) : string :=
  match wallet_name with
  | Some n => if String.eqb n "" then "Wallet-" ++ first6 (wallet_id_of api_key) else n
  | None => "Wallet-" ++ first6 (wallet_id_of api_key)
  end%string.

(** X6. The connect endpoint either answers the connected status with the
    stored wallet name (the given name, or ["Wallet-"] and the first six
    characters of the id when none or an empty one is given), or 400 with
    [str(e)] of the service's [BinanceAPIException] (["400: "] and its
    message), the vault unchanged; it never answers 500. *)
Theorem api_connect_wallet_outcomes (E : env) (v : vault) (k s : string) (t : bool)
    (n : option string) :
  match api_connect_wallet E v k s t n with
  | (_, ApiOk cs) => is_connected cs = true /\ cs_wallet_name cs = Some (stored_name k n)
  | (v', ApiErr code d) =>
      code = 400%Z /\ v' = v /\
      exists e0, d = ("400: Erro ao conectar à carteira: " ++ exc_str e0)%string
  end.
Proof.
  unfold api_connect_wallet.
  destruct (connect_wallet E v k s n t) as [v1 r] eqn:Hc.
  destruct (connect_wallet_cases E v v1 k s n t r Hc) as [-> | [-> [e0 ->]]].
  - destruct (connect_wallet_ok E v v1 k s n t Hc) as [-> _].
    fold (wallet_id_of k).
    set (v1 := mk_vault (enc_key v) (<[wallet_id_of k:=next_loc v]> (wallets v))
                 (<[next_loc v:=wallet_record v k s n t (now E)]> (heap v)) (Pos.succ (next_loc v))).
    destruct (wallet_record_lookups v k s n t (now E)) as (Ha & Hs & _).
    destruct (get_wallet_found v1 (wallet_id_of k) (next_loc v) (wallet_record v k s n t (now E)))
      as (v2 & Hg & Hd).
    + apply lookup_insert_eq.
    + apply lookup_insert_eq.
    + rewrite Ha; eauto.
    + rewrite Hs; eauto.
    + rewrite Hg, Hd. rewrite !lookup_delete_ne by discriminate.
      unfold wallet_record. rewrite lookup_insert_ne by discriminate.
      rewrite lookup_insert_ne by discriminate. rewrite lookup_insert_eq.
      split; reflexivity.
  - repeat split; eauto.
Qed.

(** ** The order ledger *)

(** X7. A buy or sell call changes the order ledger only when the exchange
    accepted the order and its answer carries an [orderId]: the raw answer is
    then stored under [str(orderId)], even when building the returned record
    afterwards raises. *)
Theorem place_order_ledger (sd what : string) (E : env) (v : vault) (ledger : order_ledger)
    (symbol : string) (quantity : float) (wallet_id : string) (p : option float) :
  let '(_, ledger', res) := place_order sd what E v ledger symbol quantity wallet_id p in
  (ledger' = ledger /\ exists e, res = Err e) \/
  exists c od oid,
    gw_create_order E c (order_request_of symbol sd quantity p) = Ok od /\
    od !! "orderId" = Some oid /\
    ledger' = <[py_str oid := od]> ledger /\
    match _create_order_response E od with
    | Ok r => res = Ok r
    | Err e => res = Err (BinanceAPIException ("Erro ao executar ordem de " ++ what ++ ": " ++ exc_str e))
    end.
Proof.
  unfold place_order.
  destruct (_get_binance_client_from_wallet E v wallet_id) as [v1 [c|e]]; [|left; eauto].
  destruct (gw_create_order E c (order_request_of symbol sd quantity p)) as [od|e] eqn:Hod;
    [|left; eauto].
  unfold py_getitem. destruct (od !! "orderId") as [oid|] eqn:Hoid; [|left; eauto].
  destruct (_create_order_response E od) as [r|e] eqn:Hr; simpl;
    right; exists c, od, oid; rewrite Hr; repeat split; auto.
Qed.

(** X8. Buying or selling from an unknown wallet id raises a
    [BinanceAPIException] whose detail embeds the 404 of the
    [NotFoundException] (so the endpoints' [except NotFoundException] never
    sees it), before any exchange call and with vault and ledger unchanged. *)
Theorem place_order_unknown_wallet (sd what : string) (E : env) (v : vault)
    (ledger : order_ledger) (symbol : string) (quantity : float) (wallet_id : string)
    (p : option float) (Hnone : wallets v !! wallet_id = None) :
  place_order sd what E v ledger symbol quantity wallet_id p =
    (v, ledger, Err (BinanceAPIException ("Erro ao executar ordem de " ++ what
       ++ ": 404: Carteira com ID " ++ wallet_id ++ " não encontrada"))).
Proof.
  unfold place_order, _get_binance_client_from_wallet, get_wallet. rewrite Hnone. reflexivity.
Qed.

Lemma place_order_unknown_wallet_witness :
  snd (place_buy_order demo_ok (vault_of demo_world) ∅ "BTCUSDT" 1%float "nope" None) =
    Err (BinanceAPIException "Erro ao executar ordem de compra: 404: Carteira com ID nope não encontrada").
Proof.
  unfold place_buy_order.
  rewrite (place_order_unknown_wallet "BUY" "compra" demo_ok (vault_of demo_world) ∅ "BTCUSDT"
             1%float "nope" None ltac:(vm_compute; reflexivity)).
  reflexivity.
Defined.

(** ** Looking up and cancelling orders *)

Definition demo_ext : env_ext :=
  mk_env_ext (fun _ => Ok None) (fun _ _ _ => Ok ∅) (fun _ _ _ => Ok ∅) (fun _ _ => Ok []).

Definition demo_ext_down : env_ext :=
  mk_env_ext (fun _ => Ok None) (fun _ _ _ => Ok ∅) (fun _ _ _ => Ok ∅)
    (fun _ _ => Err (ClientException "APIError(code=-1121): Invalid symbol.")).

(** X10. [get_order] and [cancel_order] change the ledger only when the
    exchange answered: the answer is stored under [order_id] exactly as
    given (not under the exchange's [orderId]), even when building the
    returned record afterwards raises. *)
Theorem order_call_ledger (what : string) (call : client -> string -> Z -> result pydict)
    (E : env) (v : vault) (ledger : order_ledger) (oid wallet_id symbol : string) :
  let '(_, ledger', res) := order_call what call E v ledger oid wallet_id symbol in
  (ledger' = ledger /\ exists e, res = Err e) \/
  exists c n info,
    snd (_get_binance_client_from_wallet E v wallet_id) = Ok c /\
    py_int_of_string oid = Ok n /\
    call c symbol n = Ok info /\
    ledger' = <[oid := info]> ledger /\
    match _create_order_response E info with
    | Ok r => res = Ok r
    | Err e => res = Err (BinanceAPIException (what ++ exc_str e))
    end.
Proof.
  unfold order_call.
  destruct (_get_binance_client_from_wallet E v wallet_id) as [v1 [c|e]]; [|left; eauto].
  destruct (py_int_of_string oid) as [n|e] eqn:Hp; [|left; eauto].
  destruct (call c symbol n) as [info|e] eqn:Hi; [|left; eauto].
  destruct (_create_order_response E info) as [r|e] eqn:Hr; simpl;
    right; exists c, n, info; rewrite Hr; repeat split; auto.
Qed.

(** ** [int(str(n))] *)

Definition no_space (s : string) : Prop :=
  Forall (fun c => is_py_space c = false) (list_ascii_of_string s).

Lemma lstrip_no_space (s : string) : no_space s -> lstrip s = s.
Proof.
  destruct s as [|c s]; [reflexivity|]. unfold no_space. simpl.
  intros Hf. inversion Hf as [|? ? Hc _]. rewrite Hc. reflexivity.
Qed.

Lemma strip_no_space (s : string) : no_space s -> strip s = s.
Proof.
  intros Hs. unfold strip. rewrite (lstrip_no_space s Hs).
  rewrite lstrip_no_space.
  - rewrite !list_ascii_of_string_of_list_ascii, rev_involutive.
    apply string_of_list_ascii_of_string.
  - unfold no_space. rewrite list_ascii_of_string_of_list_ascii. apply Forall_rev. exact Hs.
Qed.

Lemma digit_char (d : nat) :
  (d < 10)%nat ->
  is_digit (ascii_of_nat (48 + d)) = true /\
  (nat_of_ascii (ascii_of_nat (48 + d)) - 48)%nat = d /\
  is_py_space (ascii_of_nat (48 + d)) = false.
Proof.
  intros Hd.
  do 10 (destruct d as [|d]; [vm_compute; repeat split|]). lia.
Qed.

Lemma pos_mod10_digit (p : positive) :
  (Z.to_nat (Zpos p mod 10) < 10)%nat /\ Z.of_nat (Z.to_nat (Zpos p mod 10)) = (Zpos p mod 10)%Z.
Proof.
  pose proof (Z.mod_pos_bound (Zpos p) 10 ltac:(lia)). split; [lia|]. apply Z2Nat.id. lia.
Qed.

Lemma digits_of_pos_no_space (fuel : nat) (p : positive) (acc : string) :
  no_space acc -> no_space (digits_of_pos fuel p acc).
Proof.
  revert p acc. induction fuel as [|fuel IH]; intros p acc Hacc; simpl; [exact Hacc|].
  destruct (pos_mod10_digit p) as [Hd _].
  destruct (digit_char _ Hd) as (_ & _ & Hsp).
  assert (Hacc' : no_space (String (ascii_of_nat (48 + Z.to_nat (Zpos p mod 10))) acc)).
  { unfold no_space. simpl. constructor; assumption. }
  destruct (Zpos p / 10)%Z; [exact Hacc'|apply IH; exact Hacc'|exact Hacc'].
Qed.

Lemma digits_of_pos_head (fuel : nat) (p : positive) (acc : string) :
  (0 < fuel)%nat ->
  exists d r, (d < 10)%nat /\ digits_of_pos fuel p acc = String (ascii_of_nat (48 + d)) r.
Proof.
  revert p acc. induction fuel as [|fuel IH]; intros p acc Hf; [lia|]. simpl.
  destruct (pos_mod10_digit p) as [Hd _].
  destruct (Zpos p / 10)%Z as [|q|q]; [eauto| |eauto].
  destruct fuel as [|fuel']; [simpl; eauto|]. apply IH. lia.
Qed.

Lemma parse_digits_digit (c : ascii) (r : string) (a : Z) (prev : bool) :
  is_digit c = true ->
  parse_digits (String c r) a prev = parse_digits r (a * 10 + Z.of_nat (nat_of_ascii c - 48)) true.
Proof. intros Hc. simpl. rewrite Hc. reflexivity. Qed.

Lemma digits_of_pos_S (fuel : nat) (p : positive) (acc : string) :
  digits_of_pos (S fuel) p acc =
  match (Zpos p / 10)%Z with
  | Zpos q => digits_of_pos fuel q (String (ascii_of_nat (48 + Z.to_nat (Zpos p mod 10))) acc)
  | _ => String (ascii_of_nat (48 + Z.to_nat (Zpos p mod 10))) acc
  end.
Proof. reflexivity. Qed.

Lemma digits_of_pos_parse (fuel : nat) (p : positive) (acc : string) (a : Z) (prev : bool) :
  (Zpos p < 2 ^ Z.of_nat fuel)%Z ->
  exists k : nat,
    parse_digits (digits_of_pos fuel p acc) a prev =
    parse_digits acc (a * 10 ^ Z.of_nat k + Zpos p) true.
Proof.
  revert p acc a prev. induction fuel as [|fuel IH]; intros p acc a prev Hp.
  - simpl in Hp. lia.
  - rewrite Nat2Z.inj_succ, Z.pow_succ_r in Hp by lia.
    destruct (pos_mod10_digit p) as [Hd Hdz].
    destruct (digit_char _ Hd) as (Hdig & Hval & _).
    pose proof (Z.div_mod (Zpos p) 10 ltac:(lia)) as Hdm.
    pose proof (Z.div_pos (Zpos p) 10 ltac:(lia) ltac:(lia)) as Hq0.
    rewrite digits_of_pos_S.
    destruct (Zpos p / 10)%Z as [|q|q] eqn:Hq.
    + exists 1%nat. rewrite (parse_digits_digit _ _ _ _ Hdig), Hval, Hdz. f_equal. lia.
    + destruct (IH q (String (ascii_of_nat (48 + Z.to_nat (Zpos p mod 10))) acc) a prev)
        as [k Hk]; [lia|].
      exists (S k). rewrite Hk, (parse_digits_digit _ _ _ _ Hdig), Hval, Hdz. f_equal.
      rewrite Nat2Z.inj_succ, Z.pow_succ_r by lia. nia.
    + lia.
Qed.

Lemma pos_lt_size_nat (p : positive) : (Zpos p < 2 ^ Z.of_nat (Pos.size_nat p))%Z.
Proof.
  induction p as [p IH|p IH|]; simpl Pos.size_nat; try (rewrite Nat2Z.inj_succ, Z.pow_succ_r by lia);
    [rewrite Pos2Z.inj_xI|rewrite Pos2Z.inj_xO|]; simpl; lia.
Qed.

Lemma parse_digits_of_pos (p : positive) :
  parse_digits (digits_of_pos (Pos.size_nat p) p "") 0 false = Some (Zpos p).
Proof.
  destruct (digits_of_pos_parse (Pos.size_nat p) p "" 0 false (pos_lt_size_nat p)) as [k ->].
  reflexivity.
Qed.

(** X11. [int()] reads back every [str()] of an int: an order id the
    service printed with [str(order["orderId"])] is accepted by [get_order]
    and [cancel_order] as the same number. *)
Theorem py_int_of_string_str (z : Z) : py_int_of_string (string_of_Z z) = Ok z.
Proof.
  destruct z as [|p|p]; [reflexivity| |].
  - unfold py_int_of_string, string_of_Z. cbv zeta.
    rewrite strip_no_space by (apply digits_of_pos_no_space; constructor).
    pose proof (parse_digits_of_pos p) as Hparse.
    destruct (digits_of_pos_head (Pos.size_nat p) p "" ltac:(destruct p; simpl; lia))
      as (d & r & Hd & Heq).
    rewrite Heq in Hparse |- *.
    do 10 (destruct d as [|d]; [simpl in Hparse |- *; rewrite Hparse; reflexivity|]). lia.
  - unfold py_int_of_string, string_of_Z. cbv zeta.
    rewrite strip_no_space.
    + simpl. rewrite parse_digits_of_pos. reflexivity.
    + unfold no_space. simpl. constructor; [reflexivity|].
      apply digits_of_pos_no_space. constructor.
Qed.

(** ** Listing orders *)

(** X12. Without a symbol (or with an empty one), if the exchange rejects
    each of the three symbols tried, [get_orders] reports no error: it
    returns an empty list and leaves the ledger unchanged. *)
Theorem get_orders_no_symbol_all_fail (E : env) (X : env_ext) (v : vault) (ledger : order_ledger)
    (wallet_id : string) (symbol : option string) (c : client)
    (Hsym : symbol = None \/ symbol = Some ""%string)
    (Hc : snd (_get_binance_client_from_wallet E v wallet_id) = Ok c)
    (Hfail : forall s, In s common_symbols -> exists e, gw_get_all_orders X c s = Err e) :
  get_orders E X v ledger wallet_id symbol =
    (fst (_get_binance_client_from_wallet E v wallet_id), ledger, Ok []).
Proof.
  destruct (Hfail "BTCUSDT"%string ltac:(simpl; tauto)) as [e1 H1].
  destruct (Hfail "ETHUSDT"%string ltac:(simpl; tauto)) as [e2 H2].
  destruct (Hfail "BNBUSDT"%string ltac:(simpl; tauto)) as [e3 H3].
  unfold get_orders.
  destruct (_get_binance_client_from_wallet E v wallet_id) as [v1 r]. simpl in Hc |- *. subst r.
  destruct Hsym as [-> | ->]; simpl; rewrite H1, H2, H3; reflexivity.
Qed.

Lemma get_orders_no_symbol_all_fail_witness :
  get_orders demo_ok demo_ext_down (vault_of demo_world) ∅ "MTIzNDU2Nzg=" None =
    (fst (_get_binance_client_from_wallet demo_ok (vault_of demo_world) "MTIzNDU2Nzg="), ∅, Ok []).
Proof.
  apply (get_orders_no_symbol_all_fail demo_ok demo_ext_down (vault_of demo_world) ∅
           "MTIzNDU2Nzg=" None (mk_client "APIKEY12345678" "SECRET" true)).
  - left. reflexivity.
  - vm_compute. reflexivity.
  - intros s _. eexists. reflexivity.
Defined.

Lemma insert_desc_perm (lt : pydict -> pydict -> bool) (x : pydict) (l : list pydict) :
  Permutation (insert_desc lt x l) (x :: l).
Proof.
  induction l as [|y l IH]; simpl; [reflexivity|].
  destruct (lt y x); [reflexivity|]. rewrite IH. apply perm_swap.
Qed.

Lemma sort_desc_perm_acc (lt : pydict -> pydict -> bool) (os acc : list pydict) :
  Permutation (foldl (fun acc x => insert_desc lt x acc) acc os) (os ++ acc).
Proof.
  revert acc. induction os as [|x os IH]; intros acc; simpl; [reflexivity|].
  rewrite IH, insert_desc_perm. symmetry. apply Permutation_middle.
Qed.

Lemma sort_desc_perm (lt : pydict -> pydict -> bool) (os : list pydict) :
  Permutation os (sort_desc lt os).
Proof.
  unfold sort_desc. rewrite sort_desc_perm_acc, app_nil_r. reflexivity.
Qed.

(** [l] is in non-increasing order for [lt]: no element is followed by a
    strictly greater one. *)
Inductive desc_sorted (lt : pydict -> pydict -> bool) : list pydict -> Prop :=
| desc_nil : desc_sorted lt []
| desc_one x : desc_sorted lt [x]
| desc_cons x y l : lt x y = false -> desc_sorted lt (y :: l) -> desc_sorted lt (x :: y :: l).

Section insertion.
Variable lt : pydict -> pydict -> bool.
Hypothesis lt_asym : forall a b, lt a b = true -> lt b a = false.

Lemma insert_desc_sorted (x : pydict) (l : list pydict) :
  desc_sorted lt l -> desc_sorted lt (insert_desc lt x l).
Proof.
  induction 1 as [|y|y z l Hyz Hs IH]; simpl.
  - constructor.
  - destruct (lt y x) eqn:Hyx; constructor; auto; constructor.
  - destruct (lt y x) eqn:Hyx.
    + constructor; [apply lt_asym; exact Hyx|]. constructor; assumption.
    + simpl in IH. destruct (lt z x) eqn:Hzx; constructor; auto.
Qed.

Lemma sort_desc_sorted_acc (os acc : list pydict) :
  desc_sorted lt acc -> desc_sorted lt (foldl (fun acc x => insert_desc lt x acc) acc os).
Proof.
  revert acc. induction os as [|x os IH]; intros acc Hacc; simpl; [exact Hacc|].
  apply IH, insert_desc_sorted, Hacc.
Qed.

Lemma sort_desc_sorted (os : list pydict) : desc_sorted lt (sort_desc lt os).
Proof. apply sort_desc_sorted_acc. constructor. Qed.
End insertion.

Lemma int_lt_asym (a b : pydict) : int_lt a b = true -> int_lt b a = false.
Proof.
  unfold int_lt. destruct (key_int (time_key a)), (key_int (time_key b)); try discriminate.
  intros H. apply Z.ltb_lt in H. apply Z.ltb_ge. lia.
Qed.

Lemma str_lt_asym (a b : pydict) : str_lt a b = true -> str_lt b a = false.
Proof.
  unfold str_lt. destruct (key_str (time_key a)) as [x|], (key_str (time_key b)) as [y|];
    try discriminate.
  unfold String.ltb. rewrite (String.compare_antisym y x).
  destruct (String.compare x y); simpl; congruence.
Qed.

Lemma desc_sorted_all (lt : pydict -> pydict -> bool) (l : list pydict) :
  (forall a b, In a l -> In b l -> lt a b = false) -> desc_sorted lt l.
Proof.
  induction l as [|x [|y l] IH]; intros H; [constructor|constructor|].
  constructor; [apply H; simpl; auto|]. apply IH. intros a b Ha Hb. apply H; simpl in *; tauto.
Qed.

Lemma forallb_false_In {A} (f : A -> bool) (l : list A) :
  forallb f l = false -> exists x, In x l /\ f x = false.
Proof.
  induction l as [|x l IH]; simpl; [discriminate|].
  destruct (f x) eqn:Hx; simpl; [|eauto].
  intros H. destruct (IH H) as (y & Hy & Hf). eauto.
Qed.

Lemma key_int_none (o : pydict) :
  bool_decide (is_Some (key_int (time_key o))) = false -> key_int (time_key o) = None.
Proof.
  destruct (key_int (time_key o)); [|reflexivity].
  rewrite bool_decide_eq_true_2 by eauto. discriminate.
Qed.

Lemma key_str_none (o : pydict) :
  bool_decide (is_Some (key_str (time_key o))) = false -> key_str (time_key o) = None.
Proof.
  destruct (key_str (time_key o)); [|reflexivity].
  rewrite bool_decide_eq_true_2 by eauto. discriminate.
Qed.

(** X13. The sort in [get_orders] keeps exactly the fetched orders and puts
    them newest first: no order is followed by one with a later [time]
    (compared as ints, or as strings when every [time] is a string).  It
    raises a comparison [TypeError] only when there are at least two orders
    and their keys are not all ints nor all strings. *)
Theorem sort_orders_newest_first (os : list pydict) :
  match sort_orders os with
  | Ok sorted =>
      Permutation os sorted /\ desc_sorted int_lt sorted /\ desc_sorted str_lt sorted
  | Err e =>
      (exists m, e = TypeError m) /\ (2 <= List.length os)%nat /\
      (exists o, In o os /\ key_int (time_key o) = None) /\
      (exists o, In o os /\ key_str (time_key o) = None)
  end.
Proof.
  destruct os as [|o1 [|o2 os']].
  - simpl. split; [reflexivity|split; constructor].
  - simpl. split; [reflexivity|split; constructor].
  - set (os := o1 :: o2 :: os').
    change (sort_orders os) with
      (if forallb (fun o => bool_decide (is_Some (key_int (time_key o)))) os
       then Ok (sort_desc int_lt os)
       else if forallb (fun o => bool_decide (is_Some (key_str (time_key o)))) os
       then Ok (sort_desc str_lt os)
       else Err (TypeError "'<' not supported between instances") : result (list pydict)).
    destruct (forallb (fun o => bool_decide (is_Some (key_int (time_key o)))) os) eqn:Hi.
    + split; [apply sort_desc_perm|]. split; [apply sort_desc_sorted, int_lt_asym|].
      apply desc_sorted_all. intros a b Ha _.
      rewrite <- (sort_desc_perm int_lt os) in Ha.
      rewrite forallb_forall in Hi. specialize (Hi a Ha). apply bool_decide_eq_true_1 in Hi.
      unfold str_lt. destruct Hi as [z Hz]. destruct (time_key a); simpl in *; try discriminate.
      reflexivity.
    + destruct (forallb (fun o => bool_decide (is_Some (key_str (time_key o)))) os) eqn:Hs.
      * split; [apply sort_desc_perm|]. split; [|apply sort_desc_sorted, str_lt_asym].
        apply desc_sorted_all. intros a b Ha _.
        rewrite <- (sort_desc_perm str_lt os) in Ha.
        rewrite forallb_forall in Hs. specialize (Hs a Ha). apply bool_decide_eq_true_1 in Hs.
        unfold int_lt. destruct Hs as [z Hz]. destruct (time_key a); simpl in *; try discriminate.
        reflexivity.
      * split; [eexists; reflexivity|]. split; [simpl; lia|].
        destruct (forallb_false_In _ _ Hi) as (a & Ha & Hka).
        destruct (forallb_false_In _ _ Hs) as (b & Hb & Hkb).
        split; [exists a|exists b]; split; auto; [apply key_int_none|apply key_str_none]; auto.
Qed.

(** ** Symbols *)

Definition entry_trading (s : pydict) : bool :=
  match s !! "status" with Some st => is_trading st | None => false end.

Lemma trading_symbols_ok (ss : list pydict) :
  Forall (fun s => is_Some (s !! "status")) ss ->
  Forall (fun s => entry_trading s = true -> is_Some (s !! "symbol")) ss ->
  exists syms, trading_symbols ss = Ok syms /\
    Forall2 (fun s sym => s !! "symbol" = Some sym) (List.filter entry_trading ss) syms.
Proof.
  induction ss as [|s ss IH]; intros Hst Hsym; simpl; [eexists; split; constructor|].
  inversion Hst as [|? ? [st Hs] Hst']; subst.
  inversion Hsym as [|? ? Hy Hsym']; subst.
  destruct (IH Hst' Hsym') as (syms & Hr & Hf).
  assert (Hg : py_getitem s "status" = Ok st) by (unfold py_getitem; rewrite Hs; reflexivity).
  rewrite Hg. simpl. unfold entry_trading at 1. rewrite Hs.
  destruct (is_trading st) eqn:Ht.
  - destruct (Hy ltac:(unfold entry_trading; rewrite Hs; exact Ht)) as [sym Hy'].
    assert (Hg' : py_getitem s "symbol" = Ok sym) by (unfold py_getitem; rewrite Hy'; reflexivity).
    rewrite Hg'. simpl. rewrite Hr. simpl.
    exists (sym :: syms). split; [reflexivity|]. constructor; assumption.
  - exists syms. split; assumption.
Qed.

(** X14. [get_available_symbols] returns the [symbol] of each entry whose
    [status] is ["TRADING"], in the exchange's order, needing no [symbol] in
    the other entries; without a [symbols] list it raises [KeyError]. *)
Theorem get_available_symbols_trading (X : env_ext) (c : client) :
  (gw_exchange_symbols X c = Ok None ->
   get_available_symbols X c = Err (KeyError "symbols")) /\
  (forall ss, gw_exchange_symbols X c = Ok (Some ss) ->
     Forall (fun s => is_Some (s !! "status")) ss ->
     Forall (fun s => entry_trading s = true -> is_Some (s !! "symbol")) ss ->
     exists syms, get_available_symbols X c = Ok syms /\
       Forall2 (fun s sym => s !! "symbol" = Some sym) (List.filter entry_trading ss) syms).
Proof.
  split.
  - intros H. unfold get_available_symbols. rewrite H. reflexivity.
  - intros ss H Hst Hsym. unfold get_available_symbols. rewrite H. simpl.
    apply trading_symbols_ok; assumption.
Qed.

(** ** Field validators *)

Lemma float_le0_false (v : float) :
  (v <=? 0)%float = false <-> ((0 <? v)%float = true \/ is_nan v = true).
Proof.
  rewrite FloatAxioms.leb_spec, FloatAxioms.ltb_spec. unfold is_nan. rewrite FloatAxioms.eqb_spec.
  replace (Prim2SF 0%float) with (S754_zero false) by (vm_compute; reflexivity).
  destruct (Prim2SF v) as [[]|[]| |[] m e]; cbv [SFleb SFltb SFeqb SFcompare negb];
    rewrite ?Z.compare_refl, ?Pos.compare_cont_refl; simpl;
    split; intros H; try discriminate; try (destruct H as [H|H]; discriminate H); auto.
Qed.

(** X15. The validators of [OrderRequest] accept a quantity, and a given
    price, exactly when it is greater than zero or NaN (a NaN fails the
    [v <= 0] test), keep the value unchanged, and otherwise raise their
    [ValueError]. *)
Theorem order_request_validators (q : float) (p : option float) :
  match quantity_must_be_positive q with
  | Ok q' => q' = q /\ ((0 <? q)%float = true \/ is_nan q = true)
  | Err e => e = ValueError "A quantidade deve ser maior que zero" /\
             ~ ((0 <? q)%float = true \/ is_nan q = true)
  end /\
  match price_must_be_positive p with
  | Ok p' => p' = p /\ forall x, p = Some x -> (0 <? x)%float = true \/ is_nan x = true
  | Err e => e = ValueError "O preço deve ser maior que zero" /\
             exists x, p = Some x /\ ~ ((0 <? x)%float = true \/ is_nan x = true)
  end.
Proof.
  split.
  - unfold quantity_must_be_positive. pose proof (float_le0_false q) as Hq.
    destruct (q <=? 0)%float; split; try reflexivity.
    + intros H. apply Hq in H. discriminate.
    + apply Hq. reflexivity.
  - unfold price_must_be_positive. destruct p as [x|].
    + pose proof (float_le0_false x) as Hx.
      destruct (x <=? 0)%float; split; try reflexivity.
      * exists x. split; [reflexivity|]. intros H. apply Hx in H. discriminate.
      * intros y [= <-]. apply Hx. reflexivity.
    + split; [reflexivity|]. discriminate.
Qed.

(** X16. The validators of [BotConfig] accept an interval of at least 5
    seconds and a maximum amount greater than zero or NaN, keep the value,
    and otherwise raise their [ValueError]. *)
Theorem bot_config_validators (n : Z) (a : float) :
  match interval_must_be_positive n with
  | Ok n' => n' = n /\ (5 <= n)%Z
  | Err e => e = ValueError "O intervalo deve ser de pelo menos 5 segundos" /\ (n < 5)%Z
  end /\
  match amount_must_be_positive a with
  | Ok a' => a' = a /\ ((0 <? a)%float = true \/ is_nan a = true)
  | Err e => e = ValueError "O valor máximo deve ser maior que zero" /\
             ~ ((0 <? a)%float = true \/ is_nan a = true)
  end.
Proof.
  split.
  - unfold interval_must_be_positive. destruct (n <? 5)%Z eqn:Hn.
    + apply Z.ltb_lt in Hn. auto.
    + apply Z.ltb_ge in Hn. auto.
  - unfold amount_must_be_positive. pose proof (float_le0_false a) as Ha.
    destruct (a <=? 0)%float; split; try reflexivity.
    + intros H. apply Ha in H. discriminate.
    + apply Ha. reflexivity.
Qed.

(** ** The bot's status *)

Lemma execute_strategy_keeps (E : env) (w : world) :
  snd (_execute_strategy E w) = Ok tt /\
  thread_alive (bot (fst (_execute_strategy E w))) = thread_alive (bot w) /\
  stop_event (bot (fst (_execute_strategy E w))) = stop_event (bot w) /\
  status (bot (fst (_execute_strategy E w))) = status (bot w) /\
  config (bot (fst (_execute_strategy E w))) = config (bot w).
Proof.
  unfold _execute_strategy.
  destruct (config (bot w)) as [cfg|] eqn:Hc; [|auto].
  destruct (fetch_price E (vault_of w) cfg) as [p|e]; [|simpl; rewrite ?Hc; auto].
  destruct (strategy_dispatch _ _ _); simpl; rewrite ?Hc; auto.
Qed.

Lemma loop_iteration_configured (E : env) (w : world) (cfg : bot_config) :
  config (bot w) = Some cfg ->
  loop_iteration E w = (fst (_execute_strategy E w), Continue).
Proof.
  intros Hc. unfold loop_iteration. rewrite Hc.
  destruct (execute_strategy_keeps E w) as (Hok & _).
  destruct (_execute_strategy E w) as [w' r]. simpl in *. subst r. reflexivity.
Qed.

Lemma bot_inv_reachable (w : world) :
  reachable w ->
  status (bot w) = (if thread_alive (bot w) && negb (stop_event (bot w)) then RUNNING else STOPPED) /\
  (thread_alive (bot w) = true -> is_Some (config (bot w))).
Proof.
  induction 1 as [key|w w' Hw IH Hs].
  - split; [reflexivity|discriminate].
  - destruct IH as [IHs IHc]. destruct Hs as [E cfg w|joined w|E w|E k s n t w|wid w|sd what E sym q wid p w].
    + unfold start. destruct (thread_alive (bot w)) eqn:Ha; [simpl; rewrite Ha; auto|].
      destruct (get_wallet (vault_of w) (wallet_id cfg)) as [v1 [info|e]];
        [|simpl; rewrite Ha; auto].
      destruct (wallet_missing v1 info); [simpl; rewrite Ha; auto|].
      destruct (fetch_price E v1 cfg); simpl; [split; [reflexivity|eauto]|rewrite Ha; auto].
    + unfold stop. destruct (thread_alive (bot w)) eqn:Ha; simpl; [|rewrite Ha; auto].
      destruct joined; simpl.
      * unfold loop_exit. destruct (status (bot w)); simpl;
          split; first [reflexivity | intros H; discriminate H].
      * rewrite Ha. split; [reflexivity|intros _; apply IHc; reflexivity].
    + unfold run_bot_loop_step. destruct (thread_alive (bot w)) eqn:Ha; simpl; [|rewrite Ha; auto].
      destruct (IHc eq_refl) as [cfg Hcfg].
      rewrite (loop_iteration_configured E w cfg Hcfg).
      destruct (execute_strategy_keeps E w) as (_ & Ha' & Hst' & Hs' & Hc').
      destruct (stop_event (bot w)) eqn:Hst; simpl.
      * rewrite ?Ha, ?Hst in IHs. simpl in IHs.
        unfold loop_exit. rewrite Hs', IHs. simpl. rewrite ?Hs', ?IHs.
        split; [reflexivity|intros H; discriminate H].
      * rewrite Ha', Hst', Hs', Hc', ?Ha, ?Hst. rewrite ?Ha, ?Hst in IHs. split; [exact IHs|eauto].
    + simpl. auto.
    + simpl. auto.
    + simpl. auto.
Qed.

(** X17. In every reachable state the bot's status is [RUNNING] exactly
    while the loop thread is alive and not asked to stop, and [STOPPED]
    otherwise: [ERROR] is never reached (each iteration's exceptions are
    caught inside [_execute_strategy]), and a live thread always has a
    configuration, so the loop's missing-configuration branch is dead too. *)
Theorem bot_status_invariant (w : world) (Hw : reachable w) :
  status (bot w) = (if thread_alive (bot w) && negb (stop_event (bot w)) then RUNNING else STOPPED) /\
  status (bot w) <> ERROR /\
  (thread_alive (bot w) = true -> is_Some (config (bot w))).
Proof.
  destruct (bot_inv_reachable w Hw) as [Hs Hc]. split; [exact Hs|]. split; [|exact Hc].
  rewrite Hs. destruct (thread_alive (bot w) && negb (stop_event (bot w))); discriminate.
Qed.

Lemma bot_status_invariant_witness :
  status (bot demo_running) = RUNNING /\ status (bot demo_running) <> ERROR.
Proof.
  split; [vm_compute; reflexivity|].
  apply (bot_status_invariant demo_running).
  exact (reachable_step _ _ demo_world_reachable (step_start demo_ok (demo_cfg None) demo_world)).
Defined.

Lemma strategy_dispatch_note (cfg : bot_config) (last : option float) (current : float)
    (op : operation) :
  strategy_dispatch cfg last current = Ok op -> op <> OpStoppedByUser.
Proof.
  unfold strategy_dispatch, _execute_simple_strategy, _execute_grid_strategy.
  destruct last as [l|]; [|intros [= <-]; discriminate].
  destruct (float_truthy l); [|intros [= <-]; discriminate].
  destruct (strategy cfg); destruct (py_fdiv (current - l)%float l); simpl;
    try discriminate;
    repeat match goal with |- context [if ?c then _ else _] => destruct c end;
    intros [= <-]; discriminate.
Qed.

Lemma execute_strategy_note (E : env) (w : world) (cfg : bot_config) :
  config (bot w) = Some cfg ->
  exists op, last_operation (bot (fst (_execute_strategy E w))) = Some op /\ op <> OpStoppedByUser.
Proof.
  intros Hc. unfold _execute_strategy. rewrite Hc.
  destruct (fetch_price E (vault_of w) cfg) as [p|e]; simpl; [|eexists; split; [reflexivity|discriminate]].
  destruct (strategy_dispatch cfg _ p) as [op|e] eqn:Hd; simpl.
  - exists op. split; [reflexivity|]. exact (strategy_dispatch_note _ _ _ _ Hd).
  - eexists; split; [reflexivity|discriminate].
Qed.

(** X18. [stop] on a bot whose thread is not alive returns [False] and
    changes nothing.  On a live one it returns [True] and records [STOPPED]
    and the stopped-by-user note, touching neither wallets nor orders, and
    the next loop step ends the thread, keeping [STOPPED] (its [finally]
    only overrides a status other than [STOPPED]).  When the thread ended
    within the [join], the note stays; when the [join] gave up, the
    iteration still running completes afterwards and its own note replaces
    ["Bot parado pelo usuário"]. *)
Theorem stop_then_loop (joined : bool) (E : env) (w : world) (Hw : reachable w) :
  (thread_alive (bot w) = false -> stop joined w = (w, false)) /\
  (thread_alive (bot w) = true ->
   let w1 := fst (stop joined w) in
   let w2 := run_bot_loop_step E w1 in
   snd (stop joined w) = true /\
   status (bot w1) = STOPPED /\ last_operation (bot w1) = Some OpStoppedByUser /\
   vault_of w1 = vault_of w /\ orders w1 = orders w /\
   thread_alive (bot w2) = false /\ status (bot w2) = STOPPED /\
   (joined = true ->
      thread_alive (bot w1) = false /\ last_operation (bot w2) = Some OpStoppedByUser) /\
   (joined = false ->
      thread_alive (bot w1) = true /\
      exists op, last_operation (bot w2) = Some op /\ op <> OpStoppedByUser)).
Proof.
  split.
  - intros Ha. unfold stop. rewrite Ha. reflexivity.
  - intros Ha. destruct (bot_inv_reachable w Hw) as [_ Hc].
    destruct (Hc Ha) as [cfg Hcfg].
    unfold stop. rewrite Ha. simpl.
    destruct joined; simpl.
    + unfold run_bot_loop_step, loop_exit. simpl.
      destruct (status (bot w)); simpl; repeat split; auto; discriminate.
    + set (w1 := with_bot (set_last_operation (Some OpStoppedByUser)
                   (set_status STOPPED (set_stop_event true (bot w)))) w).
      assert (Hc1 : config (bot w1) = Some cfg) by exact Hcfg.
      assert (Ha1 : thread_alive (bot w1) = true) by exact Ha.
      assert (Hs1 : stop_event (bot w1) = true) by reflexivity.
      unfold run_bot_loop_step. rewrite Ha1, Hs1. cbn [negb].
      rewrite (loop_iteration_configured E w1 cfg Hc1).
      destruct (execute_strategy_keeps E w1) as (_ & _ & _ & Hs' & _).
      destruct (execute_strategy_note E w1 cfg Hc1) as (op & Hop & Hne).
      destruct (_execute_strategy E w1) as [w' r]. simpl in Hs', Hop |- *.
      unfold loop_exit. rewrite Hs'. simpl.
      repeat split; try reflexivity; try discriminate.
      all: try (rewrite Hs'; reflexivity).
      * exact Ha.
      * exists op. split; [exact Hop|exact Hne].
Qed.

Lemma stop_then_loop_witness :
  exists op, last_operation (bot (run_bot_loop_step demo_ok (fst (stop false demo_running)))) = Some op /\
    op <> OpStoppedByUser.
Proof.
  destruct (stop_then_loop false demo_ok demo_running
              (reachable_step _ _ demo_world_reachable (step_start demo_ok (demo_cfg None) demo_world)))
    as [_ H].
  destruct (H ltac:(vm_compute; reflexivity)) as (_ & _ & _ & _ & _ & _ & _ & _ & Hf).
  exact (proj2 (Hf eq_refl)).
Defined.

(** X19. With the GRID strategy, a strategy step never reports a buy or a
    sell signal: the note it leaves is a monitoring, grid-analysis or
    strategy-error note. *)
Theorem grid_never_signals (E : env) (w : world) (cfg : bot_config)
    (Hc : config (bot w) = Some cfg) (Hg : strategy cfg = GRID) :
  forall op, last_operation (bot (fst (_execute_strategy E w))) = Some op ->
    signal_of op = SigNONE.
Proof.
  intros op. unfold _execute_strategy. rewrite Hc.
  destruct (fetch_price E (vault_of w) cfg) as [cur|e]; simpl; [|intros [= <-]; reflexivity].
  unfold strategy_dispatch. rewrite Hg.
  destruct (last_price (bot w)) as [l|]; simpl; [|intros [= <-]; reflexivity].
  destruct (float_truthy l); [|intros [= <-]; reflexivity].
  unfold _execute_grid_strategy.
  destruct (py_fdiv (cur - l)%float l); simpl; intros [= <-]; reflexivity.
Qed.

Definition demo_grid : world :=
  with_bot (started_state demo_ok
              (mk_bot_config "BTCUSDT" 5 10%float "MTIzNDU2Nzg=" GRID None None) 50%float)
    demo_world.

Lemma grid_never_signals_witness :
  exists op, last_operation (bot (fst (_execute_strategy demo_ok demo_grid))) = Some op /\
    signal_of op = SigNONE.
Proof.
  eexists. split; [vm_compute; reflexivity|].
  apply (grid_never_signals demo_ok demo_grid
           (mk_bot_config "BTCUSDT" 5 10%float "MTIzNDU2Nzg=" GRID None None));
    [reflexivity | reflexivity | vm_compute; reflexivity].
Defined.

(** ** Wallet ids *)

(** Position of a character in the base64 alphabet (64 when absent). *)
Fixpoint str_index (c : ascii) (s : string) (i : N) : N :=
  match s with
  | EmptyString => 64%N
  | String c' r => if Ascii.eqb c c' then i else str_index c r (N.succ i)
  end.

Definition b64_val (c : ascii) : N := str_index c b64_alphabet 0.

(** Decoding of what [b64_encode_bytes] produces, group by group. *)
Fixpoint b64_decode (cs : list ascii) : list N :=
  match cs with
  | c1 :: c2 :: c3 :: c4 :: rest =>
      if Ascii.eqb c3 "=" then [((b64_val c1 * 262144 + b64_val c2 * 4096) / 65536)%N]
      else if Ascii.eqb c4 "=" then
        let m := (b64_val c1 * 262144 + b64_val c2 * 4096 + b64_val c3 * 64)%N in
        [(m / 65536)%N; (m / 256 mod 256)%N]
      else
        let m := (b64_val c1 * 262144 + b64_val c2 * 4096 + b64_val c3 * 64 + b64_val c4)%N in
        (m / 65536)%N :: (m / 256 mod 256)%N :: (m mod 256)%N :: b64_decode rest
  | _ => []
  end.

Definition b64_char_ok (n : N) : bool :=
  match b64_char n with
  | String c EmptyString => N.eqb (b64_val c) n && negb (Ascii.eqb c "=")
  | _ => false
  end.

Lemma b64_char_ok_all : forallb (fun k => b64_char_ok (N.of_nat k)) (seq 0 64) = true.
Proof. vm_compute. reflexivity. Qed.

Lemma b64_char_spec (n : N) :
  (n < 64)%N -> exists c, b64_char n = String c "" /\ b64_val c = n /\ Ascii.eqb c "=" = false.
Proof.
  intros Hn. pose proof b64_char_ok_all as H. rewrite forallb_forall in H.
  specialize (H (N.to_nat n) ltac:(apply in_seq; lia)). rewrite N2Nat.id in H.
  unfold b64_char_ok in H. destruct (b64_char n) as [|c [|c' r]]; try discriminate.
  apply andb_prop in H as [H1 H2]. apply N.eqb_eq in H1. apply negb_true_iff in H2. eauto.
Qed.

Lemma list_ascii_of_string_app (s1 s2 : string) :
  list_ascii_of_string (String.append s1 s2) = list_ascii_of_string s1 ++ list_ascii_of_string s2.
Proof. induction s1 as [|c s1 IH]; simpl; [reflexivity|rewrite IH; reflexivity]. Qed.

Ltac n_to_z :=
  repeat match goal with H : (_ < _)%N |- _ => apply N2Z.inj_lt in H end;
  repeat match goal with x : N |- _ => pose proof (N2Z.is_nonneg x); generalize dependent x end;
  intros;
  first [apply N2Z.inj | apply N2Z.inj_lt];
  repeat first [rewrite N2Z.inj_mod | rewrite N2Z.inj_div | rewrite N2Z.inj_add
               | rewrite N2Z.inj_mul]; simpl in *;
  Z.div_mod_to_equations; lia.

Lemma b64_arith1 (a : N) :
  (a < 256)%N ->
  ((a * 65536) / 262144 < 64 /\ (a * 65536) / 4096 mod 64 < 64 /\
   (((a * 65536) / 262144) * 262144 + ((a * 65536) / 4096 mod 64) * 4096) / 65536 = a)%N.
Proof. intros Ha. repeat split; n_to_z. Qed.

Lemma b64_arith2 (a b : N) :
  (a < 256)%N -> (b < 256)%N ->
  let n := (a * 65536 + b * 256)%N in
  let m := ((n / 262144) * 262144 + (n / 4096 mod 64) * 4096 + (n / 64 mod 64) * 64)%N in
  (n / 262144 < 64)%N /\ (n / 4096 mod 64 < 64)%N /\ (n / 64 mod 64 < 64)%N /\
  (m / 65536 = a)%N /\ (m / 256 mod 256 = b)%N.
Proof. intros Ha Hb n m. subst n m. repeat split; n_to_z. Qed.

Lemma b64_arith3 (a b c : N) :
  (a < 256)%N -> (b < 256)%N -> (c < 256)%N ->
  let n := (a * 65536 + b * 256 + c)%N in
  let m := ((n / 262144) * 262144 + (n / 4096 mod 64) * 4096 + (n / 64 mod 64) * 64 + n mod 64)%N in
  (n / 262144 < 64)%N /\ (n / 4096 mod 64 < 64)%N /\ (n / 64 mod 64 < 64)%N /\ (n mod 64 < 64)%N /\
  (m / 65536 = a)%N /\ (m / 256 mod 256 = b)%N /\ (m mod 256 = c)%N.
Proof. intros Ha Hb Hc n m. subst n m. repeat split; n_to_z. Qed.

Lemma b64_enc_1 (a : N) :
  b64_encode_bytes [a] =
  String.append (b64_char ((a * 65536) / 262144)%N)
    (String.append (b64_char ((a * 65536) / 4096 mod 64)%N) "==").
Proof. reflexivity. Qed.

Lemma b64_enc_2 (a b : N) :
  b64_encode_bytes [a; b] =
  let n := (a * 65536 + b * 256)%N in
  String.append (b64_char (n / 262144)%N) (String.append (b64_char (n / 4096 mod 64)%N)
    (String.append (b64_char (n / 64 mod 64)%N) "=")).
Proof. reflexivity. Qed.

Lemma b64_enc_3 (a b c : N) (rest : list N) :
  b64_encode_bytes (a :: b :: c :: rest) =
  let n := (a * 65536 + b * 256 + c)%N in
  String.append (b64_char (n / 262144)%N) (String.append (b64_char (n / 4096 mod 64)%N)
    (String.append (b64_char (n / 64 mod 64)%N)
       (String.append (b64_char (n mod 64)%N) (b64_encode_bytes rest)))).
Proof. reflexivity. Qed.

Lemma b64_decode_4 (c1 c2 c3 c4 : ascii) (rest : list ascii) :
  b64_decode (c1 :: c2 :: c3 :: c4 :: rest) =
      if Ascii.eqb c3 "=" then [((b64_val c1 * 262144 + b64_val c2 * 4096) / 65536)%N]
      else if Ascii.eqb c4 "=" then
        let m := (b64_val c1 * 262144 + b64_val c2 * 4096 + b64_val c3 * 64)%N in
        [(m / 65536)%N; (m / 256 mod 256)%N]
      else
        let m := (b64_val c1 * 262144 + b64_val c2 * 4096 + b64_val c3 * 64 + b64_val c4)%N in
        (m / 65536)%N :: (m / 256 mod 256)%N :: (m mod 256)%N :: b64_decode rest.
Proof. reflexivity. Qed.

Lemma b64_decode_encode_n (k : nat) (bs : list N) :
  (List.length bs <= k)%nat -> Forall (fun b => (b < 256)%N) bs ->
  b64_decode (list_ascii_of_string (b64_encode_bytes bs)) = bs.
Proof.
  revert bs. induction k as [|k IH]; intros bs Hlen Hbs.
  { destruct bs; [reflexivity|simpl in Hlen; lia]. }
  destruct bs as [|a [|b [|c rest]]]; [reflexivity| | |].
  - inversion Hbs as [|? ? Ha _]; subst.
    destruct (b64_arith1 a Ha) as (H1 & H2 & Hd).
    destruct (b64_char_spec _ H1) as (c1 & E1 & V1 & _).
    destruct (b64_char_spec _ H2) as (c2 & E2 & V2 & _).
    rewrite b64_enc_1, !list_ascii_of_string_app, E1, E2. simpl list_ascii_of_string.
    simpl app. rewrite b64_decode_4. cbn iota. rewrite V1, V2, Hd. reflexivity.
  - inversion Hbs as [|? ? Ha Hbs']; subst. inversion Hbs' as [|? ? Hb _]; subst.
    destruct (b64_arith2 a b Ha Hb) as (H1 & H2 & H3 & Hd1 & Hd2).
    destruct (b64_char_spec _ H1) as (c1 & E1 & V1 & _).
    destruct (b64_char_spec _ H2) as (c2 & E2 & V2 & _).
    destruct (b64_char_spec _ H3) as (c3 & E3 & V3 & Q3).
    rewrite b64_enc_2. cbv zeta. rewrite !list_ascii_of_string_app, E1, E2, E3.
    simpl list_ascii_of_string. simpl app. rewrite b64_decode_4, Q3. cbn iota.
    cbv zeta. rewrite V1, V2, V3, Hd1, Hd2. reflexivity.
  - inversion Hbs as [|? ? Ha Hbs1]; subst. inversion Hbs1 as [|? ? Hb Hbs2]; subst.
    inversion Hbs2 as [|? ? Hc Hrest]; subst.
    destruct (b64_arith3 a b c Ha Hb Hc) as (H1 & H2 & H3 & H4 & Hd1 & Hd2 & Hd3).
    destruct (b64_char_spec _ H1) as (c1 & E1 & V1 & _).
    destruct (b64_char_spec _ H2) as (c2 & E2 & V2 & _).
    destruct (b64_char_spec _ H3) as (c3 & E3 & V3 & Q3).
    destruct (b64_char_spec _ H4) as (c4 & E4 & V4 & Q4).
    rewrite b64_enc_3. cbv zeta. rewrite !list_ascii_of_string_app, E1, E2, E3, E4.
    simpl list_ascii_of_string. simpl app. rewrite b64_decode_4, Q3, Q4. cbn iota.
    cbv zeta. rewrite V1, V2, V3, V4, Hd1, Hd2, Hd3.
    rewrite IH; [reflexivity| |exact Hrest]. simpl in Hlen. lia.
Qed.

Lemma b64encode_inj (s1 s2 : string) : b64encode s1 = b64encode s2 -> s1 = s2.
Proof.
  unfold b64encode. intros H.
  assert (Hb : forall s, Forall (fun b => (b < 256)%N) (map N_of_ascii (list_ascii_of_string s))).
  { intros s. apply List.Forall_forall. intros b Hin. apply in_map_iff in Hin as (c & <- & _).
    apply N_ascii_bounded. }
  assert (Hm : map N_of_ascii (list_ascii_of_string s1) = map N_of_ascii (list_ascii_of_string s2)).
  { rewrite <- (b64_decode_encode_n _ _ (le_n _) (Hb s1)), H.
    apply (b64_decode_encode_n (List.length (map N_of_ascii (list_ascii_of_string s2))));
      [lia|apply Hb]. }
  apply (f_equal (map ascii_of_N)) in Hm. rewrite !map_map in Hm.
  rewrite !(map_ext (fun x => ascii_of_N (N_of_ascii x)) id ascii_N_embedding), !map_id in Hm.
  rewrite <- (string_of_list_ascii_of_string s1), <- (string_of_list_ascii_of_string s2), Hm.
  reflexivity.
Qed.

(** [api_key[-8:]] counts characters, not bytes: a two-byte character
    among the last eight is kept whole. *)
Lemma last8_multibyte : last8 "xaé123456" = "aé123456"%string.
Proof. reflexivity. Qed.

(** X20. Two API keys give the same wallet id exactly when their last eight
    characters (code points, as Python slices a [str]) are equal: the id is
    [b64encode(api_key[-8:].encode())] and neither the UTF-8 encoding nor
    base64 loses anything. *)
Theorem wallet_id_of_injective (k1 k2 : string) :
  wallet_id_of k1 = wallet_id_of k2 <-> last8 k1 = last8 k2.
Proof.
  unfold wallet_id_of. split; [apply b64encode_inj|intros ->; reflexivity].
Qed.

(** ** Order responses and the wallet list *)

Lemma list_wallets_reachable (w : world) :
  reachable w ->
  exists ds, list_wallets (vault_of w) = Ok ds /\ List.length ds = size (wallets (vault_of w)).
Proof.
  intros Hw. pose proof (reachable_records w Hw) as Hr.
  set (v := vault_of w) in *.
  destruct (mapM_result_Ok (fun '(wallet_id, l) => list_wallet_entry v wallet_id l)
              (map_to_list (wallets v))) as [ds Hds].
  { intros [id l] Hin. apply elem_of_map_to_list in Hin.
    destruct (Hr id l Hin) as (d & Hd & _ & _ & [n Hn] & [t Ht] & [c Hc]).
    unfold list_wallet_entry, py_getitem, deref. rewrite Hd, Hn, Ht, Hc. eexists; reflexivity. }
  exists ds. split; [exact Hds|].
  rewrite <- (Forall2_length _ _ _ (mapM_result_Forall2 _ _ _ Hds)). apply length_map_to_list.
Qed.

(** X22. In every reachable process the wallet list endpoint never answers
    500: it returns the service's list with [count] equal to the number of
    stored wallets. *)
Theorem api_list_wallets_count (E : env) (w : world) (Hw : reachable w) :
  exists r, api_list_wallets E (vault_of w) = ApiOk r /\
    wl_count r = Z.of_nat (size (wallets (vault_of w))) /\
    list_wallets (vault_of w) = Ok (wl_wallets r).
Proof.
  destruct (list_wallets_reachable w Hw) as (ds & Hds & Hlen).
  unfold api_list_wallets. rewrite Hds.
  eexists. split; [reflexivity|]. simpl. rewrite Hlen. split; reflexivity.
Qed.

Lemma api_list_wallets_count_witness :
  exists r, api_list_wallets demo_ok (vault_of demo_world) = ApiOk r /\ wl_count r = 1%Z.
Proof.
  destruct (api_list_wallets_count demo_ok demo_world demo_world_reachable) as (r & Hr & Hc & _).
  exists r. split; [exact Hr|]. rewrite Hc. vm_compute. reflexivity.
Defined.

(** ** The trading handlers *)

(** What a trading handler answers for a service call that wraps all its
    errors in [BinanceAPIException (prefix ++ str(e))]. *)
Definition wrapped_answer {A B : Type} (prefix : string) (f : A -> B)
    (svc : result A) (a : api_result B) : Prop :=
  match a with
  | ApiOk b => exists x, svc = Ok x /\ b = f x
  | ApiErr code d =>
      code = 400%Z /\ exists e, svc = Err (BinanceAPIException (prefix ++ exc_str e)) /\
                                d = ("400: " ++ prefix ++ exc_str e)%string
  end.

Lemma api_trading_wrapped {A : Type} (pre prefix : string) (svc : result A) :
  (forall e, svc = Err e -> exists e0, e = BinanceAPIException (prefix ++ exc_str e0)) ->
  wrapped_answer prefix id svc (api_trading pre svc).
Proof.
  intros H. destruct svc as [x|e]; simpl; [eauto|].
  destruct (H e eq_refl) as [e0 ->]. simpl. eauto.
Qed.

Lemma place_order_wraps side what E v l sym q wid p :
  forall e, snd (place_order side what E v l sym q wid p) = Err e ->
  exists e0, e = BinanceAPIException ("Erro ao executar ordem de " ++ what ++ ": " ++ exc_str e0).
Proof.
  intros e. unfold place_order.
  destruct (_get_binance_client_from_wallet E v wid) as [v1 c].
  destruct c as [c|e1]; [|simpl; intros H; inversion H; eauto].
  destruct (gw_create_order E c _) as [o|e1]; [|simpl; intros H; inversion H; eauto].
  destruct (py_getitem o "orderId") as [oid|e1]; [|simpl; intros H; inversion H; eauto].
  destruct (_create_order_response E o); simpl; intros H; inversion H; eauto.
Qed.

Lemma order_call_wraps what call E v l oid wid sym :
  forall e, snd (order_call what call E v l oid wid sym) = Err e ->
  exists e0, e = BinanceAPIException (what ++ exc_str e0).
Proof.
  intros e. unfold order_call.
  destruct (_get_binance_client_from_wallet E v wid) as [v1 c].
  destruct c as [c|e1]; [|simpl; intros H; inversion H; eauto].
  destruct (py_int_of_string oid) as [n|e1]; [|simpl; intros H; inversion H; eauto].
  destruct (call c sym n) as [info|e1]; [|simpl; intros H; inversion H; eauto].
  destruct (_create_order_response E info); simpl; intros H; inversion H; eauto.
Qed.

Lemma get_orders_wraps E X v l wid sym :
  forall e, snd (get_orders E X v l wid sym) = Err e ->
  exists e0, e = BinanceAPIException ("Erro ao obter ordens: " ++ exc_str e0).
Proof.
  intros e. unfold get_orders.
  destruct (_get_binance_client_from_wallet E v wid) as [v1 c].
  destruct (match c with
            | Err e0 => (l, Err e0)
            | Ok c0 => _
            end) as [l' [r|e1]]; simpl; intros H; inversion H; eauto.
Qed.

(** X23. None of the trading handlers ever answers 404 or 500: the
    services wrap every error, an unknown wallet included, in a
    [BinanceAPIException], so each handler answers the service's result or
    400 with ["400: "] and the service's message, and the 404 and 500
    branches of the handlers are dead code. *)
Theorem trading_handlers_only_400 :
  (forall E v l sym q wid p,
     wrapped_answer "Erro ao executar ordem de compra: " id
       (snd (place_buy_order E v l sym q wid p)) (snd (api_place_buy_order E v l sym q wid p))) /\
  (forall E v l sym q wid p,
     wrapped_answer "Erro ao executar ordem de venda: " id
       (snd (place_sell_order E v l sym q wid p)) (snd (api_place_sell_order E v l sym q wid p))) /\
  (forall E X v l oid wid sym,
     wrapped_answer "Erro ao obter informações da ordem: " id
       (snd (get_order E X v l oid wid sym)) (snd (api_get_order E X v l oid wid sym))) /\
  (forall E X v l oid wid sym,
     wrapped_answer "Erro ao cancelar ordem: " id
       (snd (cancel_order E X v l oid wid sym)) (snd (api_cancel_order E X v l oid wid sym))) /\
  (forall E X v l wid sym,
     wrapped_answer "Erro ao obter ordens: "
       (fun orders => mk_order_list orders (Z.of_nat (List.length orders)) (now E))
       (snd (get_orders E X v l wid sym)) (snd (api_get_orders E X v l wid sym))).
Proof.
  split; [|split; [|split; [|split]]]; intros.
  - unfold api_place_buy_order.
    pose proof (place_order_wraps "BUY" "compra" E v l sym q wid p) as Hw.
    unfold place_buy_order.
    destruct (place_order "BUY" "compra" E v l sym q wid p) as [[v1 l1] r]. simpl in *.
    apply api_trading_wrapped. exact Hw.
  - unfold api_place_sell_order.
    pose proof (place_order_wraps "SELL" "venda" E v l sym q wid p) as Hw.
    unfold place_sell_order.
    destruct (place_order "SELL" "venda" E v l sym q wid p) as [[v1 l1] r]. simpl in *.
    apply api_trading_wrapped. exact Hw.
  - unfold api_get_order.
    pose proof (order_call_wraps "Erro ao obter informações da ordem: " (gw_get_order X)
                  E v l oid wid sym) as Hw.
    unfold get_order in *.
    destruct (order_call _ _ E v l oid wid sym) as [[v1 l1] r]. simpl in *.
    apply api_trading_wrapped. exact Hw.
  - unfold api_cancel_order.
    pose proof (order_call_wraps "Erro ao cancelar ordem: " (gw_cancel_order X)
                  E v l oid wid sym) as Hw.
    unfold cancel_order in *.
    destruct (order_call _ _ E v l oid wid sym) as [[v1 l1] r]. simpl in *.
    apply api_trading_wrapped. exact Hw.
  - unfold api_get_orders.
    pose proof (get_orders_wraps E X v l wid sym) as Hw.
    destruct (get_orders E X v l wid sym) as [[v1 l1] [os|e]]; simpl in *; [eauto|].
    destruct (Hw e eq_refl) as [e0 ->]. simpl. eauto.
Qed.

Lemma start_never_false E w cfg : snd (start E w cfg) <> Ok false.
Proof.
  unfold start.
  destruct (thread_alive (bot w)); [discriminate|].
  destruct (get_wallet (vault_of w) (wallet_id cfg)) as [v1 [info|e]]; [|discriminate].
  destruct (wallet_missing v1 info); [discriminate|].
  destruct (fetch_price E v1 cfg); discriminate.
Qed.

(** X24. [start_bot] answers success exactly when [start] succeeds, with the
    start time and the RUNNING status [start] installed; its error answers
    come from [start]'s exception (400 with [str(e)] for a [ValueError] or a
    [BinanceAPIException], 500 with the handler's prefix for any other
    exception), and its ["Falha ao iniciar o bot"] branch is never taken. *)
Theorem start_bot_outcomes (E : env) (w : world) (cfg : bot_config) :
  match snd (api_start_bot E w cfg) with
  | ApiOk r =>
      snd (start E w cfg) = Ok true /\ bs_start_time r = Some (now E) /\
      status (bot (fst (api_start_bot E w cfg))) = RUNNING /\ bs_config r = cfg
  | ApiErr code d =>
      exists e, snd (start E w cfg) = Err e /\
        match e with
        | ValueError _ | BinanceAPIException _ => code = 400%Z /\ d = exc_str e
        | _ => code = 500%Z /\ d = ("Erro ao iniciar o bot: " ++ exc_str e)%string
        end
  end.
Proof.
  pose proof (start_never_false E w cfg) as Hnf.
  unfold api_start_bot.
  remember (start E w cfg) as sr eqn:Hsr.
  destruct sr as [w1 [[|]|e]]; simpl in *.
  - (* success *)
    unfold start in Hsr.
    destruct (thread_alive (bot w)); [discriminate|].
    destruct (get_wallet (vault_of w) (wallet_id cfg)) as [v1 [info|e]]; [|discriminate].
    destruct (wallet_missing v1 info); [discriminate|].
    destruct (fetch_price E v1 cfg) as [price|e]; [|discriminate].
    inversion Hsr; subst. simpl. repeat split.
  - exfalso. apply Hnf. reflexivity.
  - destruct e; simpl; eexists; (split; [reflexivity|]); simpl; auto.
Qed.

(** X25. The connection-test endpoint never answers [is_connected: false]:
    [test_connection] returns [True] or raises, so every failure, missing
    credentials included, is a 500 with the endpoint's prefix. *)
Theorem api_test_connection_never_false (E : env) (api_key api_secret : string) (t : bool) :
  match api_test_connection E api_key api_secret t with
  | ApiOk r => ct_is_connected r = true
  | ApiErr code d =>
      code = 500%Z /\ exists e, d = ("Erro ao testar conexão: " ++ exc_str e)%string
  end.
Proof.
  unfold api_test_connection.
  destruct (get_binance_client E api_key api_secret (PyBool t)) as [c|e]; simpl; [|eauto].
  unfold test_connection. destruct (gw_ping E c) as [[]|e]; simpl; eauto.
Qed.
